(** * ForecastingJob: the AutoML forecasting-task entity

    A shallow embedding of
    [azure/ai/ml/entities/_job/automl/tabular/forecasting_job.py]
    (class [ForecastingJob]) and the properties its specification states
    about it: the [primary_metric] property, the no-op [training] setter,
    [set_forecast_settings], [set_training], the two REST converters and
    the equality methods.

    Python objects are modelled by records, attribute assignment by
    explicit state passing, and a raised exception by the left injection
    of a sum, paired with the entity state at the moment of the raise. *)

From Stdlib Require Import ZArith Bool List Ascii String Lia.
Import ListNotations.

Local Open Scope string_scope.
Local Open Scope list_scope.

(* ================================================================== *)
(** * Python values *)
(* ================================================================== *)

(** The values that the keyword arguments of this module carry: [str],
    [int], [bool], [List[str]], [List[int]] and string-keyed dictionaries
    (tags, properties, environment variables).  Absence ([None]) is the
    [None] of an [option pyval]. *)
Inductive pyval : Type :=
| PStr (s : string)
| PInt (n : Z)
| PBool (b : bool)
| PStrList (l : list string)
| PIntList (l : list Z)
| PDict (d : list (string * string)).

Fixpoint list_eqb {A : Type} (eqb : A -> A -> bool) (l1 l2 : list A) : bool :=
  match l1, l2 with
  | [], [] => true
  | x :: l1', y :: l2' => eqb x y && list_eqb eqb l1' l2'
  | _, _ => false
  end.

Fixpoint dict_get (k : string) (d : list (string * string)) : option string :=
  match d with
  | [] => None
  | (k', v) :: d' => if String.eqb k k' then Some v else dict_get k d'
  end.

(** Python's [==] on dictionaries ignores the insertion order. *)
Definition dict_eqb (d1 d2 : list (string * string)) : bool :=
  Nat.eqb (List.length d1) (List.length d2)
  && forallb (fun kv => match dict_get (fst kv) d2 with
                        | Some v => String.eqb v (snd kv)
                        | None => false
                        end) d1.

(** Python's [==] on values; [bool] is a subclass of [int], so
    [True == 1], and two empty lists are equal whatever they were meant
    to hold. *)
Definition py_eqb (a b : pyval) : bool :=
  match a, b with
  | PStr s, PStr t => String.eqb s t
  | PInt n, PInt m => Z.eqb n m
  | PBool x, PBool y => Bool.eqb x y
  | PBool x, PInt m => Z.eqb (if x then 1 else 0) m
  | PInt n, PBool y => Z.eqb n (if y then 1 else 0)
  | PStrList l, PStrList k => list_eqb String.eqb l k
  | PIntList l, PIntList k => list_eqb Z.eqb l k
  | PStrList [], PIntList [] => true
  | PIntList [], PStrList [] => true
  | PDict d, PDict e => dict_eqb d e
  | _, _ => false
  end.

(** [==] on [Optional] values: [None == None], and [None] equals nothing
    else. *)
Definition opt_eqb {A : Type} (eqb : A -> A -> bool) (a b : option A) : bool :=
  match a, b with
  | None, None => true
  | Some x, Some y => eqb x y
  | _, _ => false
  end.

(** An instance of a class that defines neither [__bool__] nor
    [__len__], held for its class name and attribute values.  Such an
    object is true in a boolean context, so for an attribute that holds
    one or [None], [x if x else None] tells the two apart. *)
Record instance : Type := mkInstance {
  class_name : string;
  attributes : list (string * pyval)
}.

(** [x if x is not None else old] *)
Definition if_not_none {A : Type} (x old : option A) : option A :=
  match x with
  | Some v => Some v
  | None => old
  end.

(* ================================================================== *)
(** * Strings: character classes, [str.upper], [str.lower] *)
(* ================================================================== *)

Module Str.

Definition code (c : ascii) : nat := nat_of_ascii c.

(** [[A-Z]] *)
Definition is_upper (c : ascii) : bool :=
  Nat.leb 65 (code c) && Nat.leb (code c) 90.

(** [[a-z]] *)
Definition is_lower (c : ascii) : bool :=
  Nat.leb 97 (code c) && Nat.leb (code c) 122.

(** [[0-9]] *)
Definition is_digit (c : ascii) : bool :=
  Nat.leb 48 (code c) && Nat.leb (code c) 57.

(** [\s] on the ASCII range: tab, newline, vertical tab, form feed,
    carriage return, the four separators 0x1c-0x1f and the space. *)
Definition is_space (c : ascii) : bool :=
  (Nat.leb 9 (code c) && Nat.leb (code c) 13)
  || (Nat.leb 28 (code c) && Nat.leb (code c) 32).

Definition newline : ascii := ascii_of_nat 10.

Definition upper_char (c : ascii) : ascii :=
  if is_lower c then ascii_of_nat (code c - 32) else c.

Definition lower_char (c : ascii) : ascii :=
  if is_upper c then ascii_of_nat (code c + 32) else c.

(** [s.upper()] and, below, [s.lower()], on a string of ASCII
    characters: only the letters [a-z] and [A-Z] change. *)
Fixpoint upper (s : string) : string :=
  match s with
  | EmptyString => EmptyString
  | String c s' => String (upper_char c) (upper s')
  end.

Fixpoint lower (s : string) : string :=
  match s with
  | EmptyString => EmptyString
  | String c s' => String (lower_char c) (lower s')
  end.

(** [t in s] *)
Fixpoint contains (t s : string) : bool :=
  if String.prefix t s then true
  else match s with
       | EmptyString => false
       | String _ s' => contains t s'
       end.

Fixpoint drop_while (p : ascii -> bool) (s : string) : string :=
  match s with
  | EmptyString => EmptyString
  | String c s' => if p c then drop_while p s' else s
  end.

Fixpoint all_chars (p : ascii -> bool) (s : string) : bool :=
  match s with
  | EmptyString => true
  | String c s' => p c && all_chars p s'
  end.

Fixpoint rev_onto (s acc : string) : string :=
  match s with
  | EmptyString => acc
  | String c s' => rev_onto s' (String c acc)
  end.

Definition rev (s : string) : string := rev_onto s EmptyString.

(** [s] without the prefix [p], when it has it. *)
Fixpoint strip_prefix (p s : string) : option string :=
  match p, s with
  | EmptyString, _ => Some s
  | String a p', String b s' =>
      if Ascii.eqb a b then strip_prefix p' s' else None
  | String _ _, EmptyString => None
  end.

Definition strip_suffix (p s : string) : option string :=
  match strip_prefix (rev p) (rev s) with
  | Some r => Some (rev r)
  | None => None
  end.

Fixpoint join (sep : string) (l : list string) : string :=
  match l with
  | [] => EmptyString
  | [x] => x
  | x :: l' => x ++ sep ++ join sep l'
  end.

(** The strings of this development stand for Python strings of ASCII
    characters: on these, [upper], [lower] and the character classes
    above are Python's.  Outside ASCII Python's case mappings are those
    of Unicode, which a string of bytes does not carry. *)
Definition is_ascii (s : string) : bool :=
  all_chars (fun c => Nat.ltb (code c) 128) s.

(** [s.strip()] *)
Definition strip (s : string) : string :=
  rev (drop_while is_space (rev (drop_while is_space s))).

(** [s.split(sep)] for a separator of one character: one part more than
    there are separators, empty parts included. *)
Fixpoint split_on (sep : ascii) (s : string) : list string :=
  match s with
  | EmptyString => [EmptyString]
  | String c r =>
      if Ascii.eqb c sep then EmptyString :: split_on sep r
      else match split_on sep r with
           | x :: l => String c x :: l
           | [] => [String c EmptyString]
           end
  end.

End Str.

(* ================================================================== *)
(** * Collaborators of the module: the two string utilities *)
(* ================================================================== *)

(** Modelled from the spec: [camel_to_snake] of [azure.ai.ml._utils.utils]
    is not part of the sources at hand.  The specification calls it the
    case/separator normalization of a metric name.  For one name it is
    the usual pair of substitutions: [(.)([A-Z][a-z]+)] becomes [\1_\2],
    then [([a-z0-9])([A-Z])] becomes [\1_\2], and the result is
    lower-cased.

    [camel_words in_run s] is the first substitution, scanning left to
    right without overlap; [in_run] says that the characters at the head
    of [s] still belong to the greedy [[a-z]+] of the match in progress. *)
Fixpoint camel_words (in_run : bool) (s : string) : string :=
  match s with
  | EmptyString => EmptyString
  | String c r =>
      if in_run && Str.is_lower c then String c (camel_words true r)
      else
        match r with
        | String u (String l _ as r') =>
            if negb (Ascii.eqb c Str.newline) && Str.is_upper u && Str.is_lower l
            then String c (String "_" (String u (camel_words true r')))
            else String c (camel_words false r)
        | _ => String c (camel_words false r)
        end
  end.

(** Modelled from the spec: the second substitution of [camel_to_snake],
    an underscore between a lower-case letter or digit and the capital
    that follows it. *)
Fixpoint camel_humps (s : string) : string :=
  match s with
  | EmptyString => EmptyString
  | String c r =>
      match r with
      | String u _ =>
          if (Str.is_lower c || Str.is_digit c) && Str.is_upper u
          then String c (String "_" (camel_humps r))
          else String c (camel_humps r)
      | EmptyString => String c EmptyString
      end
  end.

(** Modelled from the spec: the conversion of one name, the two
    substitutions one after the other, then [str.lower]. *)
Definition _camel_to_snake (captured_value : string) : string :=
  Str.lower (camel_humps (camel_words false captured_value)).

(** Modelled from the spec: the wrapper that the conversions of
    [azure.ai.ml._utils.utils] share, not part of the sources at hand.
    An empty text gives [None]; a text with commas is split at them, each
    part stripped and converted, and the parts joined by commas again;
    any other text is converted as it is. *)
Definition _csv_parser (text : string) (convert : string -> string) : option string :=
  match text with
  | EmptyString => None
  | _ =>
      if Str.contains "," text
      then Some (Str.join "," (map (fun t => convert (Str.strip t)) (Str.split_on "," text)))
      else Some (convert text)
  end.

(** Modelled from the spec: [camel_to_snake], the case/separator
    normalization of a metric name; [None] for the empty string. *)
Definition camel_to_snake (text : string) : option string :=
  _csv_parser text _camel_to_snake.

(** Modelled from the spec: [is_data_binding_expression] of
    [azure.ai.ml._utils.utils] is not part of the sources at hand.  The
    specification calls its argument a deferred-binding placeholder,
    recognised by a fixed syntactic pattern referencing a
    pipeline-parameter namespace: the whole string is
    [${{ <prefix><non-blank characters> }}], the prefix being the given
    path joined by dots, with blanks allowed inside the braces only at
    the two ends. *)
Definition binding_body (prefix s : string) : bool :=
  match Str.strip_prefix "${{" s with
  | None => false
  | Some r1 =>
      match Str.strip_suffix "}}" r1 with
      | None => false
      | Some r2 =>
          match Str.strip_prefix prefix (Str.drop_while Str.is_space r2) with
          | None => false
          | Some r3 =>
              Str.all_chars (fun c => negb (Str.is_space c))
                (Str.rev (Str.drop_while Str.is_space (Str.rev r3)))
          end
      end
  end.

(** Modelled from the spec: [is_data_binding_expression], with the
    pattern anchored at both ends; the end anchor also matches before a
    final newline. *)
Definition is_data_binding_expression (value : string) (binding_prefix : list string) : bool :=
  let prefix := Str.join "." binding_prefix in
  binding_body prefix value
  || match Str.strip_suffix (String Str.newline EmptyString) value with
     | Some v => binding_body prefix v
     | None => false
     end.

(* ================================================================== *)
(** * The metric enumeration *)
(* ================================================================== *)

(** Modelled from the spec: the enumeration [ForecastingPrimaryMetrics] of
    the REST client (the fixed metric set) is not part of the sources at
    hand; the source names one member, the default.  Each member has its
    Python name and, as a [str] subclass, the wire spelling as its
    value. *)
Inductive ForecastingPrimaryMetrics : Type :=
| SPEARMAN_CORRELATION
| NORMALIZED_ROOT_MEAN_SQUARED_ERROR
| R2_SCORE
| NORMALIZED_MEAN_ABSOLUTE_ERROR.

Definition all_metrics : list ForecastingPrimaryMetrics :=
  [SPEARMAN_CORRELATION; NORMALIZED_ROOT_MEAN_SQUARED_ERROR; R2_SCORE;
   NORMALIZED_MEAN_ABSOLUTE_ERROR].

Definition metric_name (m : ForecastingPrimaryMetrics) : string :=
  match m with
  | SPEARMAN_CORRELATION => "SPEARMAN_CORRELATION"
  | NORMALIZED_ROOT_MEAN_SQUARED_ERROR => "NORMALIZED_ROOT_MEAN_SQUARED_ERROR"
  | R2_SCORE => "R2_SCORE"
  | NORMALIZED_MEAN_ABSOLUTE_ERROR => "NORMALIZED_MEAN_ABSOLUTE_ERROR"
  end.

Definition metric_wire_value (m : ForecastingPrimaryMetrics) : string :=
  match m with
  | SPEARMAN_CORRELATION => "SpearmanCorrelation"
  | NORMALIZED_ROOT_MEAN_SQUARED_ERROR => "NormalizedRootMeanSquaredError"
  | R2_SCORE => "R2Score"
  | NORMALIZED_MEAN_ABSOLUTE_ERROR => "NormalizedMeanAbsoluteError"
  end.

(** The exceptions this module can raise by itself: the [KeyError] of a
    failed subscript, whose single argument is the key that was looked
    up, and the [AttributeError] of an attribute asked of an object that
    has none of that name. *)
Inductive exn : Type :=
| KeyError (key : string)
| AttributeError (message : string).

(** [e.args] *)
Definition exn_args (e : exn) : list string :=
  match e with
  | KeyError key => [key]
  | AttributeError message => [message]
  end.


(** [None.upper()] *)
Definition none_has_no_upper : exn :=
  AttributeError "'NoneType' object has no attribute 'upper'".

Inductive outcome (A : Type) : Type :=
| Returned (a : A)
| Raised (e : exn).
Arguments Returned {A} a.
Arguments Raised {A} e.

Fixpoint find_metric (name : string) (l : list ForecastingPrimaryMetrics)
  : option ForecastingPrimaryMetrics :=
  match l with
  | [] => None
  | m :: l' => if String.eqb (metric_name m) name then Some m else find_metric name l'
  end.

(** [ForecastingPrimaryMetrics[name]]: the member of that name, or
    [KeyError(name)]. *)
Definition ForecastingPrimaryMetrics_getitem (name : string) : outcome ForecastingPrimaryMetrics :=
  match find_metric name all_metrics with
  | Some m => Returned m
  | None => Raised (KeyError name)
  end.

(** What [primary_metric] is assigned and what [_primary_metric] holds:
    [None], a plain string, or a member of the enumeration. *)
Inductive metric_value : Type :=
| MNone
| MStr (s : string)
| MEnum (m : ForecastingPrimaryMetrics).

(** [str(value)] *)
Definition py_str (value : metric_value) : string :=
  match value with
  | MNone => "None"
  | MStr s => s
  | MEnum m => "ForecastingPrimaryMetrics." ++ metric_name m
  end.

(** The characters of a value that is a [str]; a member of the
    enumeration is a [str] too, with its wire spelling as content. *)
Definition str_content (value : metric_value) : option string :=
  match value with
  | MNone => None
  | MStr s => Some s
  | MEnum m => Some (metric_wire_value m)
  end.

(** Truth value: [None] and the empty string are false. *)
Definition metric_truthy (value : metric_value) : bool :=
  match str_content value with
  | None => false
  | Some s => negb (String.eqb s EmptyString)
  end.

(** [a == b] on these values: [None] equals only [None], strings compare
    by content, members included. *)
Definition metric_eqb (a b : metric_value) : bool :=
  opt_eqb String.eqb (str_content a) (str_content b).

(* ================================================================== *)
(** * The data model *)
(* ================================================================== *)

(** Modelled from the spec: the class [ForecastingSettings], the nested
    record, is not part of the sources at hand; its attributes are the
    fourteen that [set_forecast_settings] assigns.  The keyword arguments of
    [set_forecast_settings] have the same names and the same shape, so a
    value of this type also stands for one call's arguments. *)
Record ForecastingSettings : Type := mkForecastingSettings {
  country_or_region_for_holidays : option pyval;
  cv_step_size : option pyval;
  forecast_horizon : option pyval;
  target_lags : option pyval;
  target_rolling_window_size : option pyval;
  frequency : option pyval;
  feature_lags : option pyval;
  seasonality : option pyval;
  use_stl : option pyval;
  short_series_handling_config : option pyval;
  target_aggregate_function : option pyval;
  time_column_name : option pyval;
  time_series_id_column_names : option pyval;
  features_unknown_at_forecast_time : option pyval
}.

(** Modelled from the spec: [ForecastingSettings()], the nested record's
    own defaults; every keyword of its constructor defaults to [None]. *)
Definition ForecastingSettings_new : ForecastingSettings :=
  mkForecastingSettings None None None None None None None
                        None None None None None None None.

(** Modelled from the spec: [ForecastingSettings.__eq__], the equality of
    two settings records, attribute by attribute. *)
Definition ForecastingSettings_eqb (a b : ForecastingSettings) : bool :=
  opt_eqb py_eqb (country_or_region_for_holidays a) (country_or_region_for_holidays b)
  && opt_eqb py_eqb (cv_step_size a) (cv_step_size b)
  && opt_eqb py_eqb (forecast_horizon a) (forecast_horizon b)
  && opt_eqb py_eqb (target_lags a) (target_lags b)
  && opt_eqb py_eqb (target_rolling_window_size a) (target_rolling_window_size b)
  && opt_eqb py_eqb (frequency a) (frequency b)
  && opt_eqb py_eqb (feature_lags a) (feature_lags b)
  && opt_eqb py_eqb (seasonality a) (seasonality b)
  && opt_eqb py_eqb (use_stl a) (use_stl b)
  && opt_eqb py_eqb (short_series_handling_config a) (short_series_handling_config b)
  && opt_eqb py_eqb (target_aggregate_function a) (target_aggregate_function b)
  && opt_eqb py_eqb (time_column_name a) (time_column_name b)
  && opt_eqb py_eqb (time_series_id_column_names a) (time_series_id_column_names b)
  && opt_eqb py_eqb (features_unknown_at_forecast_time a)
                    (features_unknown_at_forecast_time b).

(** Modelled from the spec: the class [ForecastingTrainingSettings], the
    training record, is not part of the sources at hand; its attributes
    are the ten shared training toggles that [set_training] names.  One
    call's keyword arguments have the same shape. *)
Record ForecastingTrainingSettings : Type := mkForecastingTrainingSettings {
  enable_onnx_compatible_models : option bool;
  enable_dnn_training : option bool;
  enable_model_explainability : option bool;
  enable_stack_ensemble : option bool;
  enable_vote_ensemble : option bool;
  stack_ensemble_settings : option pyval;
  ensemble_model_download_timeout : option pyval;
  allowed_training_algorithms : option pyval;
  blocked_training_algorithms : option pyval;
  training_mode : option pyval
}.

Definition with_enable_stack_ensemble (v : option bool) (t : ForecastingTrainingSettings)
  : ForecastingTrainingSettings :=
  mkForecastingTrainingSettings
    (enable_onnx_compatible_models t) (enable_dnn_training t)
    (enable_model_explainability t) v (enable_vote_ensemble t)
    (stack_ensemble_settings t) (ensemble_model_download_timeout t)
    (allowed_training_algorithms t) (blocked_training_algorithms t)
    (training_mode t).

(** Modelled from the spec: the base classes of [ForecastingJob] are not
    part of the sources at hand.  These are their job-level attributes,
    as [_to_rest_object] reads them and [_from_rest_object] passes them
    to the constructor. *)
Record JobAttributes : Type := mkJobAttributes {
  id : option pyval;
  name : option pyval;
  description : option pyval;
  tags : option pyval;
  properties : option pyval;
  experiment_name : option pyval;
  services : option pyval;
  status : option pyval;
  creation_context : option pyval;
  display_name : option pyval;
  compute : option pyval;
  outputs : option pyval;
  resources : option pyval;
  identity : option instance;
  queue_settings : option pyval;
  environment_id : option pyval;
  environment_variables : option pyval
}.

(** Modelled from the spec: the data settings of the base tabular job,
    the nine attributes that both converters copy. *)
Record DataSettings : Type := mkDataSettings {
  target_column_name : option pyval;
  training_data : option pyval;
  validation_data : option pyval;
  validation_data_size : option pyval;
  weight_column_name : option pyval;
  cv_split_column_names : option pyval;
  n_cross_validations : option pyval;
  test_data : option pyval;
  test_data_size : option pyval
}.

Inductive TaskType : Type :=
| CLASSIFICATION
| REGRESSION
| FORECASTING.

(** The state of one [ForecastingJob].  The objects held by
    [_featurization], [_limits], [_training] and [_forecasting_settings]
    are instances of plain classes, which are always true in a boolean
    context: only [None] is false there. *)
Record ForecastingJob : Type := mkForecastingJob {
  job : JobAttributes;
  data : DataSettings;
  task_type : TaskType;
  log_verbosity : option pyval;
  _featurization : option instance;
  _limits : option instance;
  _training : option ForecastingTrainingSettings;
  _primary_metric : metric_value;
  _forecasting_settings : option ForecastingSettings
}.

Definition set__training (v : option ForecastingTrainingSettings) (self : ForecastingJob)
  : ForecastingJob :=
  mkForecastingJob (job self) (data self) (task_type self) (log_verbosity self)
    (_featurization self) (_limits self) v (_primary_metric self)
    (_forecasting_settings self).

Definition set__primary_metric (v : metric_value) (self : ForecastingJob) : ForecastingJob :=
  mkForecastingJob (job self) (data self) (task_type self) (log_verbosity self)
    (_featurization self) (_limits self) (_training self) v
    (_forecasting_settings self).

Definition set__forecasting_settings (v : option ForecastingSettings) (self : ForecastingJob)
  : ForecastingJob :=
  mkForecastingJob (job self) (data self) (task_type self) (log_verbosity self)
    (_featurization self) (_limits self) (_training self) (_primary_metric self) v.

Definition set_data_settings (v : DataSettings) (self : ForecastingJob) : ForecastingJob :=
  mkForecastingJob (job self) v (task_type self) (log_verbosity self)
    (_featurization self) (_limits self) (_training self) (_primary_metric self)
    (_forecasting_settings self).

(* ================================================================== *)
(** * [primary_metric] *)
(* ================================================================== *)

Definition _DEFAULT_PRIMARY_METRIC : ForecastingPrimaryMetrics :=
  NORMALIZED_ROOT_MEAN_SQUARED_ERROR.

(** The getter. *)
Definition primary_metric (self : ForecastingJob) : metric_value :=
  _primary_metric self.

(** The right-hand side of the assignment in the setter, for a value
    that is not a placeholder. *)
Definition resolve_metric (value : metric_value) : outcome metric_value :=
  match str_content value with
  | None => Returned (MEnum _DEFAULT_PRIMARY_METRIC)
  | Some s =>
      match camel_to_snake s with
      | None => Raised none_has_no_upper
      | Some snake =>
          match ForecastingPrimaryMetrics_getitem (Str.upper snake) with
          | Returned m => Returned (MEnum m)
          | Raised e => Raised e
          end
      end
  end.

(** [camel_to_snake(value).upper()], the key that the setter looks up,
    when there is one. *)
Definition normalized_key (s : string) : option string :=
  option_map Str.upper (camel_to_snake s).


(** The setter: the outcome of the assignment and the entity after it.
    An exception leaves the right-hand side without a value, so nothing
    is assigned. *)
Definition primary_metric_setter (value : metric_value) (self : ForecastingJob)
  : outcome unit * ForecastingJob :=
  if is_data_binding_expression (py_str value) ["parent"]
  then (Returned tt, set__primary_metric value self)
  else
    match resolve_metric value with
    | Returned v => (Returned tt, set__primary_metric v self)
    | Raised e => (Raised e, self)
    end.

(* ================================================================== *)
(** * [training] *)
(* ================================================================== *)

(** What can be assigned to [training]: a dictionary, a settings record,
    or anything else Python lets through. *)
Inductive training_value : Type :=
| TrainingDict (d : pyval)
| TrainingRecord (t : ForecastingTrainingSettings)
| TrainingOther (v : option pyval).

Section Training.

(** [ForecastingTrainingSettings()]: the training record's own
    defaults, whatever they are. *)
Variable ForecastingTrainingSettings_new : ForecastingTrainingSettings.

(** The getter: [self._training or ForecastingTrainingSettings()]. *)
Definition training (self : ForecastingJob) : ForecastingTrainingSettings :=
  match _training self with
  | Some t => t
  | None => ForecastingTrainingSettings_new
  end.

(** The setter: its body is [...]. *)
Definition training_setter (value : training_value) (self : ForecastingJob) : ForecastingJob :=
  self.

(** Modelled from the spec: [AutoMLTabular.set_training], the base
    tabular-job behaviour that [set_training] delegates to, is not part
    of the sources at hand.  It takes the record through the task's
    [training] getter, stores it, and overwrites the shared toggles
    that the caller passed. *)
Definition AutoMLTabular_set_training
    (args : ForecastingTrainingSettings) (self : ForecastingJob) : ForecastingJob :=
  let t := training self in
  set__training
    (Some (mkForecastingTrainingSettings
             (if_not_none (enable_onnx_compatible_models args) (enable_onnx_compatible_models t))
             (if_not_none (enable_dnn_training args) (enable_dnn_training t))
             (if_not_none (enable_model_explainability args) (enable_model_explainability t))
             (if_not_none (enable_stack_ensemble args) (enable_stack_ensemble t))
             (if_not_none (enable_vote_ensemble args) (enable_vote_ensemble t))
             (if_not_none (stack_ensemble_settings args) (stack_ensemble_settings t))
             (if_not_none (ensemble_model_download_timeout args)
                          (ensemble_model_download_timeout t))
             (if_not_none (allowed_training_algorithms args) (allowed_training_algorithms t))
             (if_not_none (blocked_training_algorithms args) (blocked_training_algorithms t))
             (if_not_none (training_mode args) (training_mode t))))
    self.

End Training.

Section SetTraining.

(** [super().set_training] *)
Variable super_set_training : ForecastingTrainingSettings -> ForecastingJob -> ForecastingJob.

Definition set_training (args : ForecastingTrainingSettings) (self : ForecastingJob)
  : ForecastingJob :=
  let self1 := super_set_training args self in
  match enable_stack_ensemble args with
  | None =>
      match _training self1 with
      | Some t => set__training (Some (with_enable_stack_ensemble (Some false) t)) self1
      | None => self1
      end
  | Some _ => self1
  end.

End SetTraining.

(** [ForecastingJob.set_training] over the base behaviour. *)
Definition ForecastingJob_set_training (default : ForecastingTrainingSettings)
  : ForecastingTrainingSettings -> ForecastingJob -> ForecastingJob :=
  set_training (AutoMLTabular_set_training default).

(* ================================================================== *)
(** * [set_forecast_settings] *)
(* ================================================================== *)

(** The fourteen assignments each read and write one attribute of the
    same record, so the record after them is built in one step, in the
    order of the assignments. *)
Definition set_forecast_settings (args : ForecastingSettings) (self : ForecastingJob)
  : ForecastingJob :=
  let fs := match _forecasting_settings self with
            | Some fs => fs
            | None => ForecastingSettings_new
            end in
  set__forecasting_settings
    (Some (mkForecastingSettings
             (if_not_none (country_or_region_for_holidays args)
                          (country_or_region_for_holidays fs))
             (if_not_none (cv_step_size args) (cv_step_size fs))
             (if_not_none (forecast_horizon args) (forecast_horizon fs))
             (if_not_none (target_lags args) (target_lags fs))
             (if_not_none (target_rolling_window_size args) (target_rolling_window_size fs))
             (if_not_none (frequency args) (frequency fs))
             (if_not_none (feature_lags args) (feature_lags fs))
             (if_not_none (seasonality args) (seasonality fs))
             (if_not_none (use_stl args) (use_stl fs))
             (if_not_none (short_series_handling_config args)
                          (short_series_handling_config fs))
             (if_not_none (target_aggregate_function args) (target_aggregate_function fs))
             (if_not_none (time_column_name args) (time_column_name fs))
             (if_not_none (time_series_id_column_names args)
                          (time_series_id_column_names fs))
             (if_not_none (features_unknown_at_forecast_time args)
                          (features_unknown_at_forecast_time fs))))
    self.

(* ================================================================== *)
(** * Construction *)
(* ================================================================== *)

(** The keyword arguments that [__init__] hands to the base classes. *)
Record JobKwargs : Type := mkJobKwargs {
  kw_job : JobAttributes;
  kw_data : DataSettings;
  kw_log_verbosity : option pyval;
  kw_featurization : option instance;
  kw_limits : option instance;
  kw_training : option ForecastingTrainingSettings
}.

(** Modelled from the spec: [AutoMLTabular.__init__] and the classes under
    it are not part of the sources at hand; the tabular-job keywords are
    passed through as opaque keyword arguments, each stored under the
    attribute of its name.  [_primary_metric] and [_forecasting_settings]
    do not exist yet when it returns; they are shown unset. *)
Definition AutoMLTabular_init (task : TaskType) (featurization limits : option instance)
    (training : option ForecastingTrainingSettings) (kwargs : JobKwargs) : ForecastingJob :=
  mkForecastingJob (kw_job kwargs) (kw_data kwargs) task (kw_log_verbosity kwargs)
    featurization limits training MNone None.

(** [ForecastingJob.__init__] *)
Definition __init__ (primary_metric : metric_value)
    (forecasting_settings : option ForecastingSettings) (kwargs : JobKwargs)
  : outcome ForecastingJob :=
  let featurization := kw_featurization kwargs in
  let limits := kw_limits kwargs in
  let training := kw_training kwargs in
  let self := AutoMLTabular_init FORECASTING featurization limits training kwargs in
  let value := if metric_truthy primary_metric then primary_metric
               else MEnum _DEFAULT_PRIMARY_METRIC in
  match primary_metric_setter value self with
  | (Returned _, self1) => Returned (set__forecasting_settings forecasting_settings self1)
  | (Raised e, _) => Raised e
  end.

(* ================================================================== *)
(** * Equality *)
(* ================================================================== *)

(** The argument of [__eq__]: any object, a [ForecastingJob] or not. *)
Inductive py_object : Type :=
| AForecastingJob (j : ForecastingJob)
| AnotherObject (v : option pyval).

(** What [__eq__] returns. *)
Inductive eq_result : Type :=
| EqBool (b : bool)
| NotImplemented.

(** [NotImplemented] is true in a boolean context. *)
Definition eq_result_truthy (r : eq_result) : bool :=
  match r with
  | EqBool b => b
  | NotImplemented => true
  end.

Section Equality.

(** [super().__eq__], the base tabular-job equality, on two
    forecasting jobs. *)
Variable super_eq : ForecastingJob -> ForecastingJob -> bool.

Definition __eq__ (self : ForecastingJob) (other : py_object) : eq_result :=
  match other with
  | AnotherObject _ => NotImplemented
  | AForecastingJob other =>
      if negb (super_eq self other) then EqBool false
      else EqBool (metric_eqb (primary_metric self) (primary_metric other)
                   && opt_eqb ForecastingSettings_eqb
                        (_forecasting_settings self) (_forecasting_settings other))
  end.

Definition __ne__ (self : ForecastingJob) (other : py_object) : bool :=
  negb (eq_result_truthy (__eq__ self other)).

End Equality.

(* ================================================================== *)
(** * Sample entities *)
(* ================================================================== *)

Definition no_job_attributes : JobAttributes :=
  mkJobAttributes None None None None None None None None None
                  None None None None None None None None.

Definition no_data_settings : DataSettings :=
  mkDataSettings None None None None None None None None None.

Definition no_kwargs : JobKwargs :=
  mkJobKwargs no_job_attributes no_data_settings None None None None.

(** The keyword defaults of [ForecastingTrainingSettings()] and of
    [set_training]: everything absent. *)
Definition no_training_args : ForecastingTrainingSettings :=
  mkForecastingTrainingSettings None None None None None None None None None None.

(** The keyword defaults of [set_forecast_settings]: everything absent. *)
Definition no_forecast_args : ForecastingSettings :=
  mkForecastingSettings None None None None None None None
                        None None None None None None None.

(** [ForecastingJob()] as it stands after a successful construction
    without arguments. *)
Definition blank_job : ForecastingJob :=
  mkForecastingJob no_job_attributes no_data_settings FORECASTING None
    None None None (MEnum NORMALIZED_ROOT_MEAN_SQUARED_ERROR) None.

(* ================================================================== *)
(** * The attributes of the settings record, by name *)
(* ================================================================== *)

Inductive settings_field : Type :=
| F_country_or_region_for_holidays
| F_cv_step_size
| F_forecast_horizon
| F_target_lags
| F_target_rolling_window_size
| F_frequency
| F_feature_lags
| F_seasonality
| F_use_stl
| F_short_series_handling_config
| F_target_aggregate_function
| F_time_column_name
| F_time_series_id_column_names
| F_features_unknown_at_forecast_time.

(** [getattr(fs, f)] *)
Definition settings_get (f : settings_field) (fs : ForecastingSettings) : option pyval :=
  match f with
  | F_country_or_region_for_holidays => country_or_region_for_holidays fs
  | F_cv_step_size => cv_step_size fs
  | F_forecast_horizon => forecast_horizon fs
  | F_target_lags => target_lags fs
  | F_target_rolling_window_size => target_rolling_window_size fs
  | F_frequency => frequency fs
  | F_feature_lags => feature_lags fs
  | F_seasonality => seasonality fs
  | F_use_stl => use_stl fs
  | F_short_series_handling_config => short_series_handling_config fs
  | F_target_aggregate_function => target_aggregate_function fs
  | F_time_column_name => time_column_name fs
  | F_time_series_id_column_names => time_series_id_column_names fs
  | F_features_unknown_at_forecast_time => features_unknown_at_forecast_time fs
  end.

(** A call that passes [time_column_name] alone, and one that passes
    [seasonality] alone. *)
Definition only_time_column_name (v : pyval) : ForecastingSettings :=
  mkForecastingSettings None None None None None None None
                        None None None None (Some v) None None.

Definition only_seasonality (v : pyval) : ForecastingSettings :=
  mkForecastingSettings None None None None None None None
                        (Some v) None None None None None None.

(** The record that [set_forecast_settings] starts from. *)
Definition settings_before (self : ForecastingJob) : ForecastingSettings :=
  match _forecasting_settings self with
  | Some fs => fs
  | None => ForecastingSettings_new
  end.

(** Everything of the entity but the nested forecasting settings. *)
Definition same_but_forecasting_settings (a b : ForecastingJob) : Prop :=
  job a = job b /\ data a = data b /\ task_type a = task_type b
  /\ log_verbosity a = log_verbosity b /\ _featurization a = _featurization b
  /\ _limits a = _limits b /\ _training a = _training b
  /\ _primary_metric a = _primary_metric b.

(* ================================================================== *)
(** * The wire representation *)
(* ================================================================== *)

(** Modelled from the spec: the REST models of the nested objects and
    their converters are collaborators that this module only calls, not
    part of the sources at hand.  They are an interface here: the wire
    types are opaque, and so is what the converters compute.  The four
    base-class helpers
    [_resolve_data_inputs], [_validation_data_to_rest],
    [_restore_data_inputs] and [_validation_data_from_rest] flatten and
    restore the structured
    data-input references and the validation-data representation, that
    is, they act on the data settings of the task they are given. *)
Class RestModels : Type := {
  RestTabularFeaturizationSettings : Type;
  RestTabularLimitSettings : Type;
  RestTrainingSettings : Type;
  RestForecastingSettings : Type;
  RestIdentityConfiguration : Type;
  RestJobOutputs : Type;
  TabularFeaturizationSettings_to_rest : instance -> RestTabularFeaturizationSettings;
  TabularFeaturizationSettings_from_rest : RestTabularFeaturizationSettings -> instance;
  TabularLimitSettings_to_rest : instance -> RestTabularLimitSettings;
  TabularLimitSettings_from_rest : RestTabularLimitSettings -> instance;
  ForecastingTrainingSettings_to_rest : ForecastingTrainingSettings -> RestTrainingSettings;
  ForecastingTrainingSettings_from_rest : RestTrainingSettings -> ForecastingTrainingSettings;
  ForecastingSettings_to_rest : ForecastingSettings -> RestForecastingSettings;
  ForecastingSettings_from_rest : RestForecastingSettings -> ForecastingSettings;
  identity_to_job_rest_object : instance -> RestIdentityConfiguration;
  identity_from_rest_object : RestIdentityConfiguration -> instance;
  to_rest_data_outputs : option pyval -> option RestJobOutputs;
  from_rest_data_outputs : option RestJobOutputs -> option pyval;
  _resolve_data_inputs : DataSettings -> DataSettings;
  _validation_data_to_rest : DataSettings -> DataSettings;
  _restore_data_inputs : DataSettings -> DataSettings;
  _validation_data_from_rest : DataSettings -> DataSettings
}.

Section Rest.

Context {R : RestModels}.

(** Modelled from the spec: the REST model [RestForecasting], the task
    details, with the keywords that [_to_rest_object] passes.  The nine
    data settings keep their names; the other attributes carry the
    prefix [rf_]. *)
Record RestForecasting : Type := mkRestForecasting {
  rf_data : DataSettings;
  rf_featurization_settings : option RestTabularFeaturizationSettings;
  rf_limit_settings : option RestTabularLimitSettings;
  rf_training_settings : option RestTrainingSettings;
  rf_primary_metric : metric_value;
  rf_log_verbosity : option pyval;
  rf_forecasting_settings : option RestForecastingSettings
}.

(** Modelled from the spec: the REST model [RestAutoMLJob], the job
    properties, with the keywords that [_to_rest_object] passes.
    [status] is filled in by the service; a model built here has
    none. *)
Record RestAutoMLJob : Type := mkRestAutoMLJob {
  rp_display_name : option pyval;
  rp_description : option pyval;
  rp_experiment_name : option pyval;
  rp_tags : option pyval;
  rp_compute_id : option pyval;
  rp_properties : option pyval;
  rp_environment_id : option pyval;
  rp_environment_variables : option pyval;
  rp_services : option pyval;
  rp_outputs : option RestJobOutputs;
  rp_resources : option pyval;
  rp_task_details : RestForecasting;
  rp_identity : option RestIdentityConfiguration;
  rp_queue_settings : option pyval;
  rp_status : option pyval
}.

(** Modelled from the spec: the REST model [JobBase], the envelope.
    [id] and [system_data] are filled in by the service; a model built
    here has none. *)
Record JobBase : Type := mkJobBase {
  jb_id : option pyval;
  jb_name : option pyval;
  jb_system_data : option pyval;
  jb_properties : RestAutoMLJob
}.

Definition with_rf_data (d : DataSettings) (t : RestForecasting) : RestForecasting :=
  mkRestForecasting d (rf_featurization_settings t) (rf_limit_settings t)
    (rf_training_settings t) (rf_primary_metric t) (rf_log_verbosity t)
    (rf_forecasting_settings t).

(** [ForecastingJob._to_rest_object] *)
Definition _to_rest_object (self : ForecastingJob) : JobBase :=
  let forecasting_task :=
    match _forecasting_settings self with
    | Some fs =>
        mkRestForecasting (data self)
          (option_map TabularFeaturizationSettings_to_rest (_featurization self))
          (option_map TabularLimitSettings_to_rest (_limits self))
          (option_map ForecastingTrainingSettings_to_rest (_training self))
          (primary_metric self)
          (log_verbosity self)
          (Some (ForecastingSettings_to_rest fs))
    | None =>
        mkRestForecasting (data self)
          (option_map TabularFeaturizationSettings_to_rest (_featurization self))
          (option_map TabularLimitSettings_to_rest (_limits self))
          (option_map ForecastingTrainingSettings_to_rest (_training self))
          (primary_metric self)
          (log_verbosity self)
          None
    end in
  let forecasting_task := with_rf_data (_resolve_data_inputs (rf_data forecasting_task))
                                       forecasting_task in
  let forecasting_task := with_rf_data (_validation_data_to_rest (rf_data forecasting_task))
                                       forecasting_task in
  let properties :=
    mkRestAutoMLJob
      (display_name (job self))
      (description (job self))
      (experiment_name (job self))
      (tags (job self))
      (compute (job self))
      (properties (job self))
      (environment_id (job self))
      (environment_variables (job self))
      (services (job self))
      (to_rest_data_outputs (outputs (job self)))
      (resources (job self))
      forecasting_task
      (option_map identity_to_job_rest_object (identity (job self)))
      (queue_settings (job self))
      None in
  mkJobBase None (name (job self)) None properties.

(** [ForecastingJob._from_rest_object].  The keywords [environment_id]
    and [environment_variables] are not among those passed to the
    constructor, so the attributes take the constructor's default. *)
Definition _from_rest_object (obj : JobBase) : outcome ForecastingJob :=
  let properties := jb_properties obj in
  let task_details := rp_task_details properties in
  let job_args_dict :=
    mkJobAttributes
      (jb_id obj)
      (jb_name obj)
      (rp_description properties)
      (rp_tags properties)
      (rp_properties properties)
      (rp_experiment_name properties)
      (rp_services properties)
      (rp_status properties)
      (jb_system_data obj)
      (rp_display_name properties)
      (rp_compute_id properties)
      (from_rest_data_outputs (rp_outputs properties))
      (rp_resources properties)
      (option_map identity_from_rest_object (rp_identity properties))
      (rp_queue_settings properties)
      None
      None in
  match
    __init__
      (rf_primary_metric task_details)
      (option_map ForecastingSettings_from_rest (rf_forecasting_settings task_details))
      (mkJobKwargs job_args_dict
         (rf_data task_details)
         (rf_log_verbosity task_details)
         (option_map TabularFeaturizationSettings_from_rest
                     (rf_featurization_settings task_details))
         (option_map TabularLimitSettings_from_rest (rf_limit_settings task_details))
         (option_map ForecastingTrainingSettings_from_rest
                     (rf_training_settings task_details)))
  with
  | Raised e => Raised e
  | Returned forecasting_job =>
      let forecasting_job :=
        set_data_settings (_restore_data_inputs (data forecasting_job)) forecasting_job in
      let forecasting_job :=
        set_data_settings (_validation_data_from_rest (data forecasting_job))
                          forecasting_job in
      Returned forecasting_job
  end.

(** The attributes that both converters carry: all but the three that
    only the service assigns and the two environment attributes. *)
Definition carried_attributes (a : JobAttributes) : JobAttributes :=
  mkJobAttributes None (name a) (description a) (tags a) (properties a)
    (experiment_name a) (services a) None None (display_name a) (compute a)
    (outputs a) (resources a) (identity a) (queue_settings a) None None.

(** A primary metric as the setter leaves it: a member of the
    enumeration, or a placeholder. *)
Definition metric_settled (v : metric_value) : Prop :=
  match v with
  | MNone => False
  | MStr s => is_data_binding_expression s ["parent"] = true
  | MEnum _ => True
  end.

(** The collaborators invert each other on what this entity holds. *)
Record reproducible (self : ForecastingJob) : Prop := mkReproducible {
  rep_featurization :
    option_map TabularFeaturizationSettings_from_rest
      (option_map TabularFeaturizationSettings_to_rest (_featurization self))
    = _featurization self;
  rep_limits :
    option_map TabularLimitSettings_from_rest
      (option_map TabularLimitSettings_to_rest (_limits self))
    = _limits self;
  rep_training :
    option_map ForecastingTrainingSettings_from_rest
      (option_map ForecastingTrainingSettings_to_rest (_training self))
    = _training self;
  rep_forecasting_settings :
    option_map ForecastingSettings_from_rest
      (option_map ForecastingSettings_to_rest (_forecasting_settings self))
    = _forecasting_settings self;
  rep_identity :
    option_map identity_from_rest_object
      (option_map identity_to_job_rest_object (identity (job self)))
    = identity (job self);
  rep_outputs :
    from_rest_data_outputs (to_rest_data_outputs (outputs (job self)))
    = outputs (job self);
  rep_data :
    _validation_data_from_rest
      (_restore_data_inputs
         (_validation_data_to_rest (_resolve_data_inputs (data self))))
    = data self;
  rep_metric : metric_settled (_primary_metric self)
}.

(** The round trip as the specification words it: the entity comes
    back as it was. *)
Definition roundtrip_reproduces_all (self : ForecastingJob) : Prop :=
  _from_rest_object (_to_rest_object self) = Returned self.

End Rest.

(** Converters that keep the entity-side representation on the wire. *)
#[local] Instance plain_models : RestModels := {|
  RestTabularFeaturizationSettings := instance;
  RestTabularLimitSettings := instance;
  RestTrainingSettings := ForecastingTrainingSettings;
  RestForecastingSettings := ForecastingSettings;
  RestIdentityConfiguration := instance;
  RestJobOutputs := pyval;
  TabularFeaturizationSettings_to_rest := fun v => v;
  TabularFeaturizationSettings_from_rest := fun v => v;
  TabularLimitSettings_to_rest := fun v => v;
  TabularLimitSettings_from_rest := fun v => v;
  ForecastingTrainingSettings_to_rest := fun v => v;
  ForecastingTrainingSettings_from_rest := fun v => v;
  ForecastingSettings_to_rest := fun v => v;
  ForecastingSettings_from_rest := fun v => v;
  identity_to_job_rest_object := fun v => v;
  identity_from_rest_object := fun v => v;
  to_rest_data_outputs := fun v => v;
  from_rest_data_outputs := fun v => v;
  _resolve_data_inputs := fun d => d;
  _validation_data_to_rest := fun d => d;
  _restore_data_inputs := fun d => d;
  _validation_data_from_rest := fun d => d
|}.

(* ================================================================== *)
(** * The specification's wording of two metric properties *)
(* ================================================================== *)




Fixpoint without_underscores (s : string) : string :=
  match s with
  | EmptyString => EmptyString
  | String c s' =>
      if Ascii.eqb c "_" then without_underscores s'
      else String c (without_underscores s')
  end.

(** A spelling with case and word separators taken away. *)
Definition fold_spelling (s : string) : string :=
  without_underscores (Str.lower s).

(** [s] spells the name of [m], up to case and word separators. *)
Definition spelling_of (m : ForecastingPrimaryMetrics) (s : string) : Prop :=
  fold_spelling s = fold_spelling (metric_name m).

(** Assigning [s] succeeds and stores the member [m]. *)
Definition resolves_to (s : string) (m : ForecastingPrimaryMetrics) (self : ForecastingJob)
  : Prop :=
  primary_metric_setter (MStr s) self = (Returned tt, set__primary_metric (MEnum m) self).

Definition lower_first (s : string) : string :=
  match s with
  | EmptyString => EmptyString
  | String c s' => String (Str.lower_char c) s'
  end.

(** The four conventional spellings of a metric: [UPPER_SNAKE],
    [lower_snake], [PascalCase] and [camelCase]. *)
Definition conventional_spellings (m : ForecastingPrimaryMetrics) : list string :=
  [metric_name m; Str.lower (metric_name m); metric_wire_value m;
   lower_first (metric_wire_value m)].

(** Entities used as concrete inputs below. *)
Definition seasonal_settings (s : Z) : ForecastingSettings :=
  mkForecastingSettings None None (Some (PInt 12)) None None None None
                        (Some (PInt s)) None None None (Some (PStr "date")) None None.

Definition stacked_training : ForecastingTrainingSettings :=
  mkForecastingTrainingSettings None (Some false) None (Some true) None None None None None None.

Definition seasonal_job (s : Z) : ForecastingJob :=
  mkForecastingJob
    (mkJobAttributes None (Some (PStr "forecast1")) None
       (Some (PDict [("team", "ops")])) None (Some (PStr "energy")) None None None
       (Some (PStr "forecast")) (Some (PStr "cpu-cluster")) None None
       (Some (mkInstance "UserIdentityConfiguration" [])) None None None)
    (mkDataSettings (Some (PStr "demand")) (Some (PStr "azureml:train:1")) None None
                    None None (Some (PInt 5)) None None)
    FORECASTING (Some (PStr "info"))
    (Some (mkInstance "TabularFeaturizationSettings" [("mode", PStr "auto")]))
    (Some (mkInstance "TabularLimitSettings" [("max_trials", PInt 10)]))
    (Some stacked_training)
    (MEnum R2_SCORE) (Some (seasonal_settings s)).

(** An entity that came from the service and runs with environment
    variables. *)
Definition submitted_job : ForecastingJob :=
  mkForecastingJob
    (mkJobAttributes (Some (PStr "/subscriptions/s/jobs/forecast1"))
       (Some (PStr "forecast1")) None (Some (PDict [("team", "ops")])) None
       (Some (PStr "energy")) None (Some (PStr "Completed")) None
       (Some (PStr "forecast")) (Some (PStr "cpu-cluster")) None None None None
       None (Some (PDict [("LOG_LEVEL", "debug")])))
    no_data_settings FORECASTING None None None None
    (MEnum NORMALIZED_ROOT_MEAN_SQUARED_ERROR) None.

(* ================================================================== *)
(** * Further definitions: updates of single attributes *)
(* ================================================================== *)

(** [b if b is not None else a], attribute by attribute: the arguments
    of one call of [set_forecast_settings] laid over those of an earlier
    one. *)
Definition settings_override (b a : ForecastingSettings) : ForecastingSettings :=
  mkForecastingSettings
    (if_not_none (country_or_region_for_holidays b) (country_or_region_for_holidays a))
    (if_not_none (cv_step_size b) (cv_step_size a))
    (if_not_none (forecast_horizon b) (forecast_horizon a))
    (if_not_none (target_lags b) (target_lags a))
    (if_not_none (target_rolling_window_size b) (target_rolling_window_size a))
    (if_not_none (frequency b) (frequency a))
    (if_not_none (feature_lags b) (feature_lags a))
    (if_not_none (seasonality b) (seasonality a))
    (if_not_none (use_stl b) (use_stl a))
    (if_not_none (short_series_handling_config b) (short_series_handling_config a))
    (if_not_none (target_aggregate_function b) (target_aggregate_function a))
    (if_not_none (time_column_name b) (time_column_name a))
    (if_not_none (time_series_id_column_names b) (time_series_id_column_names a))
    (if_not_none (features_unknown_at_forecast_time b)
                 (features_unknown_at_forecast_time a)).

(** The entity with other values for [id], [status] and
    [creation_context]. *)
Definition with_service_fields (i s c : option pyval) (self : ForecastingJob)
  : ForecastingJob :=
  let a := job self in
  mkForecastingJob
    (mkJobAttributes i (name a) (description a) (tags a) (properties a)
       (experiment_name a) (services a) s c (display_name a) (compute a)
       (outputs a) (resources a) (identity a) (queue_settings a)
       (environment_id a) (environment_variables a))
    (data self) (task_type self) (log_verbosity self) (_featurization self)
    (_limits self) (_training self) (_primary_metric self)
    (_forecasting_settings self).

(** Everything of the entity but the stored primary metric. *)
Definition same_but_primary_metric (a b : ForecastingJob) : Prop :=
  job a = job b /\ data a = data b /\ task_type a = task_type b
  /\ log_verbosity a = log_verbosity b /\ _featurization a = _featurization b
  /\ _limits a = _limits b /\ _training a = _training b
  /\ _forecasting_settings a = _forecasting_settings b.

(** Everything of a training record but [enable_stack_ensemble]. *)
Definition same_but_stack_ensemble (a b : ForecastingTrainingSettings) : Prop :=
  with_enable_stack_ensemble None a = with_enable_stack_ensemble None b.

Section RestUpdates.

Context {R : RestModels}.

(** The envelope with other values for the two environment fields of
    its properties. *)
Definition with_wire_environment (e v : option pyval) (obj : JobBase) : JobBase :=
  let p := jb_properties obj in
  mkJobBase (jb_id obj) (jb_name obj) (jb_system_data obj)
    (mkRestAutoMLJob (rp_display_name p) (rp_description p) (rp_experiment_name p)
       (rp_tags p) (rp_compute_id p) (rp_properties p) e v (rp_services p)
       (rp_outputs p) (rp_resources p) (rp_task_details p) (rp_identity p)
       (rp_queue_settings p) (rp_status p)).

(** The envelope with another primary metric in its task details. *)
Definition with_wire_primary_metric (v : metric_value) (obj : JobBase) : JobBase :=
  let p := jb_properties obj in
  let t := rp_task_details p in
  mkJobBase (jb_id obj) (jb_name obj) (jb_system_data obj)
    (mkRestAutoMLJob (rp_display_name p) (rp_description p) (rp_experiment_name p)
       (rp_tags p) (rp_compute_id p) (rp_properties p) (rp_environment_id p)
       (rp_environment_variables p) (rp_services p) (rp_outputs p) (rp_resources p)
       (mkRestForecasting (rf_data t) (rf_featurization_settings t)
          (rf_limit_settings t) (rf_training_settings t) v (rf_log_verbosity t)
          (rf_forecasting_settings t))
       (rp_identity p) (rp_queue_settings p) (rp_status p)).

End RestUpdates.

(** [x is None] *)
Definition is_none {A : Type} (x : option A) : bool :=
  match x with
  | None => true
  | Some _ => false
  end.

(* ================================================================== *)
(** * [_create_instance_from_schema_dict] *)
(* ================================================================== *)

Section SchemaDict.

(** The values of the loaded mapping, whatever objects the schema
    produced; a value that is Python's [None] is [None] here. *)
Variable V : Type.

(** The mapping: keys with their values, at most one binding per key in
    a mapping that Python built. *)
Definition schema_dict : Type := list (string * option V).

(** [k in d] and [d[k]] *)
Fixpoint schema_lookup (k : string) (d : schema_dict) : option (option V) :=
  match d with
  | [] => None
  | (k', v) :: d' => if String.eqb k k' then Some v else schema_lookup k d'
  end.

(** [del d[k]], when the key is there. *)
Fixpoint schema_remove (k : string) (d : schema_dict) : schema_dict :=
  match d with
  | [] => []
  | (k', v) :: d' =>
      if String.eqb k k' then schema_remove k d' else (k', v) :: schema_remove k d'
  end.

(** [d.pop(k)]: the value, or [KeyError(k)] with the mapping as it
    was. *)
Definition pop_required (k : string) (d : schema_dict)
  : outcome (option V) * schema_dict :=
  match schema_lookup k d with
  | Some v => (Returned v, schema_remove k d)
  | None => (Raised (KeyError k), d)
  end.

(** [d.pop(k, None)] *)
Definition pop_or_none (k : string) (d : schema_dict) : option V * schema_dict :=
  match schema_lookup k d with
  | Some v => (v, schema_remove k d)
  | None => (None, d)
  end.

(** The dictionary [data_settings], which has these nine keys. *)
Record DataKwargs : Type := mkDataKwargs {
  dk_training_data : option V;
  dk_target_column_name : option V;
  dk_weight_column_name : option V;
  dk_validation_data : option V;
  dk_validation_data_size : option V;
  dk_cv_split_column_names : option V;
  dk_n_cross_validations : option V;
  dk_test_data : option V;
  dk_test_data_size : option V
}.

(** [AutoMLConstants.TASK_TYPE_YAML], a constant that is not part of the
    sources at hand. *)
Variable TASK_TYPE_YAML : string.

(** [ForecastingJob( **loaded_data )]: the constructor applied to the
    keywords that the mapping holds. *)
Variable ForecastingJob_of_keywords : schema_dict -> outcome ForecastingJob.

(** [job.set_data( **data_settings )], a method of the base class that
    is not part of the sources at hand. *)
Variable set_data : DataKwargs -> ForecastingJob -> ForecastingJob.

(** The method, with the mapping as it leaves it: [loaded_data] is
    changed in place, up to the point where an exception is raised. *)
Definition _create_instance_from_schema_dict (loaded_data : schema_dict)
  : outcome ForecastingJob * schema_dict :=
  let loaded_data := snd (pop_or_none TASK_TYPE_YAML loaded_data) in
  match pop_required "training_data" loaded_data with
  | (Raised e, loaded_data) => (Raised e, loaded_data)
  | (Returned training_data, loaded_data) =>
      match pop_required "target_column_name" loaded_data with
      | (Raised e, loaded_data) => (Raised e, loaded_data)
      | (Returned target_column_name, loaded_data) =>
          let '(weight_column_name, loaded_data) :=
            pop_or_none "weight_column_name" loaded_data in
          let '(validation_data, loaded_data) :=
            pop_or_none "validation_data" loaded_data in
          let '(validation_data_size, loaded_data) :=
            pop_or_none "validation_data_size" loaded_data in
          let '(cv_split_column_names, loaded_data) :=
            pop_or_none "cv_split_column_names" loaded_data in
          let '(n_cross_validations, loaded_data) :=
            pop_or_none "n_cross_validations" loaded_data in
          let '(test_data, loaded_data) := pop_or_none "test_data" loaded_data in
          let '(test_data_size, loaded_data) :=
            pop_or_none "test_data_size" loaded_data in
          let data_settings :=
            mkDataKwargs training_data target_column_name weight_column_name
              validation_data validation_data_size cv_split_column_names
              n_cross_validations test_data test_data_size in
          match ForecastingJob_of_keywords loaded_data with
          | Raised e => (Raised e, loaded_data)
          | Returned job => (Returned (set_data data_settings job), loaded_data)
          end
      end
  end.

(** The nine keys of the data settings. *)
Definition data_keys : list string :=
  ["training_data"; "target_column_name"; "weight_column_name"; "validation_data";
   "validation_data_size"; "cv_split_column_names"; "n_cross_validations";
   "test_data"; "test_data_size"].

(** [d.get(k)] *)
Definition schema_get (k : string) (d : schema_dict) : option V :=
  match schema_lookup k d with
  | Some v => v
  | None => None
  end.

(** The data settings as the mapping gives them, each key looked up by
    itself. *)
Definition data_kwargs_of (d : schema_dict) : DataKwargs :=
  mkDataKwargs (schema_get "training_data" d) (schema_get "target_column_name" d)
    (schema_get "weight_column_name" d) (schema_get "validation_data" d)
    (schema_get "validation_data_size" d) (schema_get "cv_split_column_names" d)
    (schema_get "n_cross_validations" d) (schema_get "test_data" d)
    (schema_get "test_data_size" d).

(** The mapping after the keys of a list were deleted, one after the
    other. *)
Definition schema_remove_keys (ks : list string) (d : schema_dict) : schema_dict :=
  fold_left (fun d k => schema_remove k d) ks d.

End SchemaDict.

Arguments schema_remove_keys {V} ks d.
Arguments schema_lookup {V} k d.
Arguments schema_remove {V} k d.
Arguments schema_get {V} k d.
Arguments pop_required {V} k d.
Arguments pop_or_none {V} k d.
Arguments data_kwargs_of {V} d.
Arguments _create_instance_from_schema_dict {V} TASK_TYPE_YAML ForecastingJob_of_keywords
  set_data loaded_data.

(** A loaded mapping, and collaborators to run the method on it. *)
Definition sample_document : schema_dict pyval :=
  [("task", Some (PStr "forecasting"));
   ("primary_metric", Some (PStr "r2_score"));
   ("training_data", Some (PStr "azureml:train:1"));
   ("target_column_name", Some (PStr "demand"));
   ("n_cross_validations", Some (PInt 5));
   ("experiment_name", Some (PStr "energy"))].

Definition sample_set_data (ds : DataKwargs pyval) (self : ForecastingJob) : ForecastingJob :=
  set_data_settings
    (mkDataSettings (dk_target_column_name pyval ds) (dk_training_data pyval ds)
       (dk_validation_data pyval ds) (dk_validation_data_size pyval ds)
       (dk_weight_column_name pyval ds) (dk_cv_split_column_names pyval ds)
       (dk_n_cross_validations pyval ds) (dk_test_data pyval ds)
       (dk_test_data_size pyval ds))
    self.

Definition sample_constructor (d : schema_dict pyval) : outcome ForecastingJob :=
  __init__
    (match schema_get "primary_metric" d with
     | Some (PStr s) => MStr s
     | _ => MNone
     end)
    None
    (mkJobKwargs
       (mkJobAttributes None None None None None (schema_get "experiment_name" d)
          None None None None None None None None None None None)
       no_data_settings None None None None).

(* ================================================================== *)
(** * Properties: the settings mutation *)
(* ================================================================== *)

Lemma set_forecast_settings_stored (args : ForecastingSettings) (self : ForecastingJob) :
  exists fs, _forecasting_settings (set_forecast_settings args self) = Some fs
             /\ forall f, settings_get f fs
                          = if_not_none (settings_get f args)
                                        (settings_get f (settings_before self)).
Proof.
  unfold set_forecast_settings, settings_before.
  eexists; split; [reflexivity|].
  intros f; destruct f; reflexivity.
Qed.

Lemma set_forecast_settings_frame (args : ForecastingSettings) (self : ForecastingJob) :
  same_but_forecasting_settings (set_forecast_settings args self) self.
Proof.
  unfold same_but_forecasting_settings, set_forecast_settings; simpl.
  repeat split.
Qed.

(** C1.  [set_forecast_settings] always leaves a settings record in
    place, created from the record's own defaults when the entity had
    none.  Each of the fourteen attributes then holds the caller's value
    when one was passed and the value it held before (or its default)
    when the parameter was left out; nothing else of the entity changes.
    Two calls on an entity without settings, the first with
    [time_column_name] alone and the second with [seasonality] alone,
    leave both set and every other attribute at its default. *)
Theorem set_forecast_settings_partial_update :
  forall (self : ForecastingJob) (args : ForecastingSettings),
    (exists fs,
        _forecasting_settings (set_forecast_settings args self) = Some fs
        /\ forall f : settings_field,
            settings_get f fs
            = match settings_get f args with
              | Some v => Some v
              | None => settings_get f (settings_before self)
              end)
    /\ same_but_forecasting_settings (set_forecast_settings args self) self
    /\ forall t s : pyval,
        exists fs,
          _forecasting_settings
            (set_forecast_settings (only_seasonality s)
               (set_forecast_settings (only_time_column_name t)
                  (set__forecasting_settings None self))) = Some fs
          /\ forall f : settings_field,
              settings_get f fs
              = match f with
                | F_time_column_name => Some t
                | F_seasonality => Some s
                | _ => settings_get f ForecastingSettings_new
                end.
Proof.
  intros self args. split; [|split].
  - destruct (set_forecast_settings_stored args self) as [fs [Hfs Hget]].
    exists fs. split; [exact Hfs|].
    intros f. rewrite Hget. reflexivity.
  - apply set_forecast_settings_frame.
  - intros t s. eexists. split; [reflexivity|].
    intros f; destruct f; reflexivity.
Qed.

(* ================================================================== *)
(** * Properties: the training override and the [training] attribute *)
(* ================================================================== *)

Section TrainingProperties.

Variable default : ForecastingTrainingSettings.

(** The base behaviour always leaves a record behind: it stores what
    the getter hands out. *)
Lemma AutoMLTabular_set_training_stores
      (args : ForecastingTrainingSettings) (self : ForecastingJob) :
  exists t, _training (AutoMLTabular_set_training default args self) = Some t.
Proof.
  unfold AutoMLTabular_set_training. simpl. eexists. reflexivity.
Qed.

(** The override, over any base behaviour: when the flag was not
    passed and a record exists after the delegation, the record that
    remains is that one with the flag off. *)
Lemma set_training_override
      (super_set_training : ForecastingTrainingSettings -> ForecastingJob -> ForecastingJob)
      (args : ForecastingTrainingSettings) (self : ForecastingJob)
      (t : ForecastingTrainingSettings) :
  enable_stack_ensemble args = None ->
  _training (super_set_training args self) = Some t ->
  _training (set_training super_set_training args self)
  = Some (with_enable_stack_ensemble (Some false) t).
Proof.
  intros Hnone Ht. unfold set_training.
  rewrite Hnone, Ht. reflexivity.
Qed.

(** A flag that was passed is left as the base behaviour stored it. *)
Lemma set_training_explicit
      (super_set_training : ForecastingTrainingSettings -> ForecastingJob -> ForecastingJob)
      (args : ForecastingTrainingSettings) (self : ForecastingJob) (b : bool) :
  enable_stack_ensemble args = Some b ->
  set_training super_set_training args self = super_set_training args self.
Proof.
  intros Hb. unfold set_training. rewrite Hb. reflexivity.
Qed.

End TrainingProperties.

(** C2.  Whatever the training record's own defaults are and whatever
    the entity held before (no record, or a record with stack ensembling
    on), a call of [set_training] that does not pass
    [enable_stack_ensemble] leaves a training record whose
    [enable_stack_ensemble] is [False]: it is the record the base
    behaviour stored, with that one flag forced off. *)
Theorem set_training_disables_stack_ensemble :
  forall (default args : ForecastingTrainingSettings) (self : ForecastingJob),
    enable_stack_ensemble args = None ->
    exists t0 t,
      _training (AutoMLTabular_set_training default args self) = Some t0
      /\ _training (ForecastingJob_set_training default args self) = Some t
      /\ t = with_enable_stack_ensemble (Some false) t0
      /\ enable_stack_ensemble t = Some false.
Proof.
  intros default args self Hnone.
  destruct (AutoMLTabular_set_training_stores default args self) as [t0 Ht0].
  exists t0, (with_enable_stack_ensemble (Some false) t0).
  split; [exact Ht0|]. split; [|split; reflexivity].
  unfold ForecastingJob_set_training.
  apply set_training_override; assumption.
Qed.

(** A record with stack ensembling on, and a later call that passes only
    [enable_dnn_training]. *)
Lemma set_training_disables_stack_ensemble_witness :
  enable_stack_ensemble stacked_training = Some true
  /\ exists t0 t,
      _training (AutoMLTabular_set_training no_training_args
                   (mkForecastingTrainingSettings None (Some true) None None None
                                       None None None None None)
                   (seasonal_job 7)) = Some t0
      /\ _training (ForecastingJob_set_training no_training_args
                      (mkForecastingTrainingSettings None (Some true) None None None
                                          None None None None None)
                      (seasonal_job 7)) = Some t
      /\ t = with_enable_stack_ensemble (Some false) t0
      /\ enable_stack_ensemble t = Some false.
Proof.
  split; [reflexivity|].
  apply (set_training_disables_stack_ensemble no_training_args
           (mkForecastingTrainingSettings None (Some true) None None None None None None None None)
           (seasonal_job 7)).
  reflexivity.
Defined.

(** C10.  Assigning to [training] changes nothing of the entity,
    whatever is assigned; the stored record is also left alone by the
    other mutators that are not [set_training]; and reading [training]
    on an entity without a record hands out the default record. *)
Theorem training_setter_is_noop :
  forall (default : ForecastingTrainingSettings) (self : ForecastingJob) (value : training_value),
    training_setter value self = self
    /\ (forall args, _training (set_forecast_settings args self) = _training self)
    /\ (forall v, _training (snd (primary_metric_setter v self)) = _training self)
    /\ (_training self = None -> training default self = default)
    /\ (forall t, _training self = Some t -> training default self = t).
Proof.
  intros default self value. repeat split.
  - intros v. unfold primary_metric_setter.
    destruct (is_data_binding_expression (py_str v) ["parent"]); [reflexivity|].
    destruct (resolve_metric v); reflexivity.
  - intros H. unfold training. rewrite H. reflexivity.
  - intros t H. unfold training. rewrite H. reflexivity.
Qed.

Lemma training_setter_is_noop_witness :
  _training blank_job = None
  /\ training_setter (TrainingRecord stacked_training) blank_job = blank_job
  /\ training no_training_args blank_job = no_training_args.
Proof.
  split; [reflexivity|]. split.
  - exact (proj1 (training_setter_is_noop no_training_args blank_job
                    (TrainingRecord stacked_training))).
  - apply (proj1 (proj2 (proj2 (proj2 (training_setter_is_noop no_training_args blank_job
                    (TrainingRecord stacked_training)))))).
    reflexivity.
Defined.

(* ================================================================== *)
(** * Properties: [primary_metric] *)
(* ================================================================== *)

Lemma py_str_None_not_placeholder :
  is_data_binding_expression (py_str MNone) ["parent"] = false.
Proof. vm_compute. reflexivity. Qed.

Lemma py_str_member_not_placeholder (m : ForecastingPrimaryMetrics) :
  is_data_binding_expression (py_str (MEnum m)) ["parent"] = false.
Proof. destruct m; vm_compute; reflexivity. Qed.

(** The wire spelling of a member normalizes to the member's name. *)
Lemma member_resolves_to_itself (m : ForecastingPrimaryMetrics) :
  resolve_metric (MEnum m) = Returned (MEnum m).
Proof. destruct m; vm_compute; reflexivity. Qed.

Lemma placeholder_not_empty (s : string) :
  is_data_binding_expression s ["parent"] = true -> metric_truthy (MStr s) = true.
Proof.
  destruct s as [|c s]; [vm_compute; discriminate|].
  intros _. reflexivity.
Qed.

(** The setter succeeds on a settled value and stores it again. *)
Lemma setter_on_settled (v : metric_value) (self : ForecastingJob) :
  metric_settled v ->
  metric_truthy v = true
  /\ primary_metric_setter v self = (Returned tt, set__primary_metric v self).
Proof.
  destruct v as [|s|m]; simpl; intros H.
  - contradiction.
  - split; [apply placeholder_not_empty; exact H|].
    unfold primary_metric_setter. simpl py_str. rewrite H. reflexivity.
  - split; [destruct m; reflexivity|].
    unfold primary_metric_setter.
    rewrite py_str_member_not_placeholder, member_resolves_to_itself.
    reflexivity.
Qed.

(** The setter, when it returns, leaves a settled value. *)
Lemma setter_settles (v : metric_value) (self self' : ForecastingJob) :
  primary_metric_setter v self = (Returned tt, self') ->
  metric_settled (primary_metric self').
Proof.
  unfold primary_metric_setter.
  destruct (is_data_binding_expression (py_str v) ["parent"]) eqn:Hb.
  - intros H. inversion H; subst; clear H. simpl.
    destruct v as [|s|m].
    + rewrite py_str_None_not_placeholder in Hb. discriminate.
    + exact Hb.
    + exact I.
  - destruct (resolve_metric v) as [r|e] eqn:Hr; intros H; inversion H; subst; clear H.
    simpl. unfold resolve_metric in Hr.
    destruct (str_content v).
    + destruct (camel_to_snake _); [|discriminate Hr].
      destruct (ForecastingPrimaryMetrics_getitem _); inversion Hr; exact I.
    + inversion Hr. exact I.
Qed.

Lemma init_settles (v : metric_value) (fs : option ForecastingSettings) (kwargs : JobKwargs)
      (self : ForecastingJob) :
  __init__ v fs kwargs = Returned self ->
  metric_settled (primary_metric self).
Proof.
  unfold __init__.
  destruct (primary_metric_setter _ _) as [[[]|e] self1] eqn:Hs; intros H;
    inversion H; subst; clear H.
  apply setter_settles in Hs. exact Hs.
Qed.

Lemma settled_not_none (v : metric_value) : metric_settled v -> v <> MNone.
Proof. destruct v; simpl; intros H; [contradiction| |]; discriminate. Qed.






(** C6.  A string that is a placeholder on the [parent] namespace is
    stored as it is: the assignment returns, no lookup in the
    enumeration takes place, and the getter hands the same string
    back. *)
Theorem placeholder_metric_stored_verbatim :
  forall (s : string) (self : ForecastingJob),
    is_data_binding_expression s ["parent"] = true ->
    primary_metric_setter (MStr s) self = (Returned tt, set__primary_metric (MStr s) self)
    /\ primary_metric (snd (primary_metric_setter (MStr s) self)) = MStr s.
Proof.
  intros s self Hb.
  assert (Hset : primary_metric_setter (MStr s) self
                 = (Returned tt, set__primary_metric (MStr s) self)).
  { unfold primary_metric_setter. simpl py_str. rewrite Hb. reflexivity. }
  split; [exact Hset|]. rewrite Hset. reflexivity.
Qed.

Lemma placeholder_metric_stored_verbatim_witness :
  is_data_binding_expression "${{parent.inputs.primary_metric}}" ["parent"] = true
  /\ primary_metric
       (snd (primary_metric_setter (MStr "${{parent.inputs.primary_metric}}") blank_job))
     = MStr "${{parent.inputs.primary_metric}}".
Proof.
  split; [reflexivity|].
  exact (proj2 (placeholder_metric_stored_verbatim
                  "${{parent.inputs.primary_metric}}" blank_job eq_refl)).
Defined.

(** C7.  Construction without a primary metric succeeds and resolves the
    field to the default, normalized root mean squared error; assigning
    [None] later does the same; and after any construction or assignment
    that returns, the field is not [None]. *)
Theorem primary_metric_never_unset :
  (forall (fs : option ForecastingSettings) (kwargs : JobKwargs),
      exists self,
        __init__ MNone fs kwargs = Returned self
        /\ primary_metric self = MEnum NORMALIZED_ROOT_MEAN_SQUARED_ERROR)
  /\ (forall self : ForecastingJob,
         primary_metric_setter MNone self
         = (Returned tt, set__primary_metric (MEnum NORMALIZED_ROOT_MEAN_SQUARED_ERROR) self)
         /\ primary_metric (snd (primary_metric_setter MNone self))
            = MEnum NORMALIZED_ROOT_MEAN_SQUARED_ERROR)
  /\ (forall v fs kwargs self,
         __init__ v fs kwargs = Returned self -> primary_metric self <> MNone)
  /\ (forall v self self',
         primary_metric_setter v self = (Returned tt, self') -> primary_metric self' <> MNone).
Proof.
  split; [|split; [|split]].
  - intros fs kwargs. eexists. split; reflexivity.
  - intros self. split; reflexivity.
  - intros v fs kwargs self H. apply settled_not_none. eapply init_settles; eassumption.
  - intros v self self' H. apply settled_not_none. eapply setter_settles; eassumption.
Qed.

Lemma primary_metric_never_unset_witness :
  primary_metric (snd (primary_metric_setter MNone (seasonal_job 7))) <> MNone
  /\ primary_metric (snd (primary_metric_setter MNone (seasonal_job 7)))
     = MEnum NORMALIZED_ROOT_MEAN_SQUARED_ERROR.
Proof.
  split.
  - apply (proj2 (proj2 (proj2 primary_metric_never_unset)) MNone (seasonal_job 7)).
    reflexivity.
  - exact (proj2 (proj1 (proj2 primary_metric_never_unset) (seasonal_job 7))).
Defined.

Lemma fold_spelling_cons (c : ascii) (s : string) :
  fold_spelling (String c s)
  = if Ascii.eqb (Str.lower_char c) "_" then fold_spelling s
    else String (Str.lower_char c) (fold_spelling s).
Proof. reflexivity. Qed.

Lemma fold_spelling_underscore (s : string) :
  fold_spelling (String "_" s) = fold_spelling s.
Proof. reflexivity. Qed.

Lemma lower_char_idempotent (c : ascii) :
  Str.lower_char (Str.lower_char c) = Str.lower_char c.
Proof.
  destruct c as [[] [] [] [] [] [] [] []]; vm_compute; reflexivity.
Qed.

Lemma lower_upper_char (c : ascii) :
  Str.lower_char (Str.upper_char c) = Str.lower_char c.
Proof.
  destruct c as [[] [] [] [] [] [] [] []]; vm_compute; reflexivity.
Qed.

Lemma fold_spelling_lower (s : string) : fold_spelling (Str.lower s) = fold_spelling s.
Proof.
  induction s as [|c s IH]; [reflexivity|].
  simpl Str.lower. rewrite !fold_spelling_cons, lower_char_idempotent, IH. reflexivity.
Qed.

Lemma fold_spelling_upper (s : string) : fold_spelling (Str.upper s) = fold_spelling s.
Proof.
  induction s as [|c s IH]; [reflexivity|].
  simpl Str.upper. rewrite !fold_spelling_cons, lower_upper_char, IH. reflexivity.
Qed.

Lemma fold_spelling_humps (s : string) : fold_spelling (camel_humps s) = fold_spelling s.
Proof.
  induction s as [|c r IH]; [reflexivity|].
  destruct r as [|u r']; [reflexivity|].
  change (camel_humps (String c (String u r')))
    with (if (Str.is_lower c || Str.is_digit c) && Str.is_upper u
          then String c (String "_" (camel_humps (String u r')))
          else String c (camel_humps (String u r'))).
  destruct ((Str.is_lower c || Str.is_digit c) && Str.is_upper u).
  - rewrite fold_spelling_cons, fold_spelling_underscore, IH, <- fold_spelling_cons.
    reflexivity.
  - rewrite fold_spelling_cons, IH, <- fold_spelling_cons. reflexivity.
Qed.

Lemma camel_words_cons (b : bool) (c : ascii) (r : string) :
  camel_words b (String c r)
  = if b && Str.is_lower c then String c (camel_words true r)
    else match r with
         | String u (String l _ as r') =>
             if negb (Ascii.eqb c Str.newline) && Str.is_upper u && Str.is_lower l
             then String c (String "_" (String u (camel_words true r')))
             else String c (camel_words false r)
         | _ => String c (camel_words false r)
         end.
Proof. reflexivity. Qed.

Lemma fold_spelling_words_two (s : string) :
  (forall b, fold_spelling (camel_words b s) = fold_spelling s)
  /\ (forall c b, fold_spelling (camel_words b (String c s)) = fold_spelling (String c s)).
Proof.
  induction s as [|a s [IH1 IH2]].
  - split; [reflexivity|]. intros c b. rewrite camel_words_cons.
    destruct (b && Str.is_lower c); reflexivity.
  - split; [intros b; apply IH2|].
    intros c b. rewrite camel_words_cons.
    destruct (b && Str.is_lower c).
    + rewrite fold_spelling_cons, IH2, <- fold_spelling_cons. reflexivity.
    + destruct s as [|l s'].
      * rewrite fold_spelling_cons, IH2, <- fold_spelling_cons. reflexivity.
      * destruct (negb (Ascii.eqb c Str.newline) && Str.is_upper a && Str.is_lower l).
        -- rewrite fold_spelling_cons, fold_spelling_underscore.
           rewrite (fold_spelling_cons a), IH1, <- (fold_spelling_cons a),
             <- fold_spelling_cons.
           reflexivity.
        -- rewrite fold_spelling_cons, IH2, <- fold_spelling_cons. reflexivity.
Qed.

Lemma fold_spelling_key (s : string) :
  fold_spelling (Str.upper (_camel_to_snake s)) = fold_spelling s.
Proof.
  unfold _camel_to_snake.
  rewrite fold_spelling_upper, fold_spelling_lower, fold_spelling_humps.
  apply (proj1 (fold_spelling_words_two s)).
Qed.

Lemma prefix_comma (c : ascii) (r : string) :
  String.prefix "," (String c r) = Ascii.eqb c ",".
Proof.
  cbn [String.prefix]. destruct (ascii_dec "," c) as [E|E].
  - subst c. destruct r; reflexivity.
  - symmetry. apply Ascii.eqb_neq. intros E'. apply E. symmetry. exact E'.
Qed.

Lemma contains_comma_cons (c : ascii) (r : string) :
  Str.contains "," (String c r) = if Ascii.eqb c "," then true else Str.contains "," r.
Proof.
  change (Str.contains "," (String c r))
    with (if String.prefix "," (String c r) then true else Str.contains "," r).
  rewrite prefix_comma. reflexivity.
Qed.

Lemma split_on_nonempty (sep : ascii) (s : string) :
  exists x l, Str.split_on sep s = x :: l.
Proof.
  induction s as [|c r [x [l IH]]]; simpl.
  - eexists. eexists. reflexivity.
  - destruct (Ascii.eqb c sep).
    + eexists. eexists. reflexivity.
    + rewrite IH. eexists. eexists. reflexivity.
Qed.

Lemma split_on_comma_two (s : string) :
  Str.contains "," s = true -> exists x y l, Str.split_on "," s = x :: y :: l.
Proof.
  induction s as [|c r IH].
  - simpl. discriminate.
  - rewrite contains_comma_cons. simpl Str.split_on.
    destruct (Ascii.eqb c ",").
    + intros _. destruct (split_on_nonempty "," r) as [y [l E]]. rewrite E.
      eexists. eexists. eexists. reflexivity.
    + intros H. destruct (IH H) as [x [y [l E]]]. rewrite E.
      eexists. eexists. eexists. reflexivity.
Qed.

Lemma contains_comma_app (a b : string) :
  Str.contains "," (a ++ String "," b) = true.
Proof.
  induction a as [|c a IH].
  - change (EmptyString ++ String "," b)%string with (String "," b).
    rewrite contains_comma_cons. reflexivity.
  - change (String c a ++ String "," b)%string with (String c (a ++ String "," b)).
    rewrite contains_comma_cons, IH. destruct (Ascii.eqb c ","); reflexivity.
Qed.

Lemma upper_char_comma (c : ascii) :
  Ascii.eqb (Str.upper_char c) "," = Ascii.eqb c ",".
Proof.
  destruct c as [[] [] [] [] [] [] [] []]; vm_compute; reflexivity.
Qed.

Lemma contains_comma_upper (t : string) :
  Str.contains "," (Str.upper t) = Str.contains "," t.
Proof.
  induction t as [|c t IH]; [reflexivity|].
  simpl Str.upper. rewrite !contains_comma_cons, upper_char_comma, IH. reflexivity.
Qed.

(** The key of a text with commas has commas. *)
Lemma key_of_list_has_comma (s key : string) :
  Str.contains "," s = true -> normalized_key s = Some key ->
  Str.contains "," key = true.
Proof.
  intros Hc. unfold normalized_key, camel_to_snake, _csv_parser.
  destruct s as [|c r]; [discriminate Hc|].
  rewrite Hc.
  destruct (split_on_comma_two _ Hc) as [x [y [l E]]]. rewrite E.
  cbn [option_map]. intros H. inversion H.
  rewrite contains_comma_upper.
  cbn [map].
  change (Str.join "," (_camel_to_snake (Str.strip x)
                         :: _camel_to_snake (Str.strip y)
                         :: map (fun t => _camel_to_snake (Str.strip t)) l))
    with (_camel_to_snake (Str.strip x)
          ++ String ","
               (Str.join "," (_camel_to_snake (Str.strip y)
                              :: map (fun t => _camel_to_snake (Str.strip t)) l)))%string.
  apply contains_comma_app.
Qed.

(** The key of a text without commas is the converted text. *)
Lemma key_of_name (s key : string) :
  Str.contains "," s = false -> normalized_key s = Some key ->
  key = Str.upper (_camel_to_snake s).
Proof.
  intros Hc. unfold normalized_key, camel_to_snake, _csv_parser.
  destruct s as [|c r]; [discriminate|].
  rewrite Hc. cbn [option_map]. intros H. inversion H. reflexivity.
Qed.

Lemma metric_name_no_comma (m : ForecastingPrimaryMetrics) :
  Str.contains "," (metric_name m) = false.
Proof. destruct m; vm_compute; reflexivity. Qed.

Lemma find_metric_name (name : string) (l : list ForecastingPrimaryMetrics)
      (m : ForecastingPrimaryMetrics) :
  find_metric name l = Some m -> metric_name m = name.
Proof.
  induction l as [|m' l IH]; simpl; [discriminate|].
  destruct (String.eqb (metric_name m') name) eqn:E.
  - intros H. inversion H; subst. apply String.eqb_eq. exact E.
  - exact IH.
Qed.

(** A spelling that is accepted has a key, and the key is the name of
    the member it resolves to. *)
Lemma resolved_key (s : string) (m : ForecastingPrimaryMetrics) (self : ForecastingJob) :
  resolves_to s m self -> normalized_key s = Some (metric_name m).
Proof.
  unfold resolves_to, primary_metric_setter.
  cbv beta iota delta [py_str resolve_metric str_content].
  destruct (is_data_binding_expression s ["parent"]).
  - intros H. apply (f_equal snd) in H. apply (f_equal _primary_metric) in H.
    unfold set__primary_metric in H. simpl in H. discriminate.
  - unfold normalized_key.
    destruct (camel_to_snake s) as [snake|]; [|intros H; discriminate H].
    unfold ForecastingPrimaryMetrics_getitem.
    destruct (find_metric (Str.upper snake) all_metrics) as [m'|] eqn:Hfind;
      [|intros H; discriminate H].
    intros H. apply (f_equal snd) in H. apply (f_equal _primary_metric) in H.
    unfold set__primary_metric in H. simpl in H. injection H as Hm. subst m'.
    apply find_metric_name in Hfind. cbn [option_map]. rewrite Hfind. reflexivity.
Qed.

(** A spelling that is accepted spells the name of the member it
    resolves to. *)
Lemma resolved_spelling (s : string) (m : ForecastingPrimaryMetrics) (self : ForecastingJob) :
  resolves_to s m self -> spelling_of m s.
Proof.
  intros H. apply resolved_key in H. unfold spelling_of.
  destruct (Str.contains "," s) eqn:Hc.
  - pose proof (key_of_list_has_comma s _ Hc H) as Hk.
    rewrite metric_name_no_comma in Hk. discriminate.
  - rewrite (key_of_name s _ Hc H), fold_spelling_key. reflexivity.
Qed.

Lemma folded_name_injective (m m' : ForecastingPrimaryMetrics) :
  fold_spelling (metric_name m) = fold_spelling (metric_name m') -> m = m'.
Proof.
  destruct m, m'; vm_compute; intros H; first [reflexivity | discriminate].
Qed.

(** C8.  For every member of the enumeration, its four conventional
    spellings, [UPPER_SNAKE], [lower_snake], [PascalCase] and
    [camelCase], are spellings of its name up to case and separators, and
    assigning any of them stores that member. *)
Theorem conventional_spellings_resolve :
  forall (m : ForecastingPrimaryMetrics) (s : string) (self : ForecastingJob),
    In s (conventional_spellings m) ->
    spelling_of m s /\ resolves_to s m self.
Proof.
  intros m s self Hin. unfold spelling_of, resolves_to.
  destruct m; simpl in Hin;
    repeat (destruct Hin as [Hin|Hin]; [subst s; split; vm_compute; reflexivity|]);
    contradiction.
Qed.

Lemma conventional_spellings_resolve_witness :
  In "r2Score" (conventional_spellings R2_SCORE)
  /\ spelling_of R2_SCORE "r2Score"
  /\ resolves_to "r2Score" R2_SCORE blank_job.
Proof.
  assert (Hin : In "r2Score" (conventional_spellings R2_SCORE)).
  { simpl. right. right. right. left. reflexivity. }
  split; [exact Hin|].
  exact (conventional_spellings_resolve R2_SCORE "r2Score" blank_job Hin).
Defined.

(** C8, in the specification's wording, does not hold:
    [normalizedrootmeansquarederror] differs from the wire spelling
    [NormalizedRootMeanSquaredError] in case only, and from the member's
    name in case and separators only; the wire spelling resolves, the
    lower-case one raises. *)
Lemma lowercase_spelling_raises :
  spelling_of NORMALIZED_ROOT_MEAN_SQUARED_ERROR "normalizedrootmeansquarederror"
  /\ Str.lower "NormalizedRootMeanSquaredError" = "normalizedrootmeansquarederror"
  /\ resolves_to "NormalizedRootMeanSquaredError" NORMALIZED_ROOT_MEAN_SQUARED_ERROR blank_job
  /\ ~ resolves_to "normalizedrootmeansquarederror" NORMALIZED_ROOT_MEAN_SQUARED_ERROR
         blank_job
  /\ primary_metric_setter (MStr "normalizedrootmeansquarederror") blank_job
     = (Raised (KeyError "NORMALIZEDROOTMEANSQUAREDERROR"), blank_job).
Proof.
  split; [vm_compute; reflexivity|]. split; [vm_compute; reflexivity|].
  split; [vm_compute; reflexivity|].
  split; [|vm_compute; reflexivity].
  unfold resolves_to. vm_compute. discriminate.
Qed.

(* ================================================================== *)
(** * Properties: equality *)
(* ================================================================== *)

Lemma seasonality_decides (fa fb : ForecastingSettings) :
  opt_eqb py_eqb (seasonality fa) (seasonality fb) = false ->
  ForecastingSettings_eqb fa fb = false.
Proof.
  intros H. unfold ForecastingSettings_eqb. rewrite H.
  rewrite andb_false_r. reflexivity.
Qed.

(** C5.  On two forecasting jobs [__eq__] returns [True] exactly when the
    base equality holds, the primary metrics are equal and the
    forecasting settings are equal, two absent settings counting as
    equal; [__ne__] returns the negation of what [__eq__] returns; and
    two jobs whose settings differ in [seasonality] are unequal. *)
Theorem job_equality_iff :
  forall (super_eq : ForecastingJob -> ForecastingJob -> bool) (a b : ForecastingJob),
    (__eq__ super_eq a (AForecastingJob b) = EqBool true
     <-> super_eq a b = true
         /\ metric_eqb (primary_metric a) (primary_metric b) = true
         /\ opt_eqb ForecastingSettings_eqb
              (_forecasting_settings a) (_forecasting_settings b) = true)
    /\ (exists r, __eq__ super_eq a (AForecastingJob b) = EqBool r
                  /\ __ne__ super_eq a (AForecastingJob b) = negb r)
    /\ (_forecasting_settings a = None -> _forecasting_settings b = None ->
        __eq__ super_eq a (AForecastingJob b)
        = EqBool (super_eq a b && metric_eqb (primary_metric a) (primary_metric b)))
    /\ (forall fa fb,
           _forecasting_settings a = Some fa -> _forecasting_settings b = Some fb ->
           opt_eqb py_eqb (seasonality fa) (seasonality fb) = false ->
           __eq__ super_eq a (AForecastingJob b) = EqBool false
           /\ __ne__ super_eq a (AForecastingJob b) = true).
Proof.
  intros super_eq a b.
  unfold __ne__, __eq__.
  split; [|split; [|split]].
  - destruct (super_eq a b); simpl.
    + split.
      * intros H. inversion H as [H1]. apply andb_true_iff in H1.
        destruct H1 as [Hm Hs]. rewrite Hm, Hs. repeat split.
      * intros [_ [Hm Hs]]. rewrite Hm, Hs. reflexivity.
    + split; [discriminate|]. intros [H _]. discriminate.
  - destruct (super_eq a b); simpl; eexists; split; reflexivity.
  - intros Ha Hb. rewrite Ha, Hb.
    destruct (super_eq a b); simpl; [rewrite andb_true_r|]; reflexivity.
  - intros fa fb Ha Hb Hs. rewrite Ha, Hb. simpl opt_eqb.
    rewrite (seasonality_decides fa fb Hs), andb_false_r.
    destruct (super_eq a b); split; reflexivity.
Qed.

Lemma job_equality_iff_witness :
  __eq__ (fun _ _ => true) (seasonal_job 7) (AForecastingJob (seasonal_job 12))
  = EqBool false
  /\ __ne__ (fun _ _ => true) (seasonal_job 7) (AForecastingJob (seasonal_job 12))
     = true.
Proof.
  apply (proj2 (proj2 (proj2 (job_equality_iff (fun _ _ => true)
                                (seasonal_job 7) (seasonal_job 12))))
           (seasonal_settings 7) (seasonal_settings 12)); reflexivity.
Defined.

(** C9.  Compared with an object that is not a [ForecastingJob],
    [__eq__] returns [NotImplemented]; it raises nothing and does not
    consult the base equality. *)
Theorem eq_incompatible_type_not_implemented :
  forall (super_eq : ForecastingJob -> ForecastingJob -> bool)
         (self : ForecastingJob) (v : option pyval),
    __eq__ super_eq self (AnotherObject v) = NotImplemented.
Proof.
  intros super_eq self v. reflexivity.
Qed.

(* ================================================================== *)
(** * Properties: the round trip through the wire representation *)
(* ================================================================== *)

Lemma init_on_settled (v : metric_value) (fs : option ForecastingSettings)
      (kwargs : JobKwargs) :
  metric_settled v ->
  __init__ v fs kwargs
  = Returned (mkForecastingJob (kw_job kwargs) (kw_data kwargs) FORECASTING
                (kw_log_verbosity kwargs) (kw_featurization kwargs) (kw_limits kwargs)
                (kw_training kwargs) v fs).
Proof.
  intros H. unfold __init__.
  destruct (setter_on_settled v
              (AutoMLTabular_init FORECASTING (kw_featurization kwargs) (kw_limits kwargs)
                 (kw_training kwargs) kwargs) H) as [Ht Hs].
  rewrite Ht, Hs. reflexivity.
Qed.

Section RoundTrip.

Context {R : RestModels}.

(** An absent settings record is an absent wire field. *)
Lemma absent_settings_on_the_wire (self : ForecastingJob) :
  _forecasting_settings self = None ->
  rf_forecasting_settings (rp_task_details (jb_properties (_to_rest_object self))) = None.
Proof.
  intros H. unfold _to_rest_object. rewrite H. reflexivity.
Qed.

(** The envelope built here has no [id]: an entity that has one does
    not come back as it was, whatever the collaborators do. *)
Lemma roundtrip_forgets_id (self : ForecastingJob) :
  id (job self) <> None -> ~ roundtrip_reproduces_all self.
Proof.
  intros Hid Hall. unfold roundtrip_reproduces_all, _from_rest_object in Hall.
  destruct (__init__ _ _ _) as [j|e] eqn:Hinit; [|discriminate].
  inversion Hall as [Hself]. clear Hall.
  unfold __init__ in Hinit.
  destruct (primary_metric_setter _ _) as [[[]|e] self1] eqn:Hs; [|discriminate].
  inversion Hinit; subst j; clear Hinit.
  assert (Hj : job self1 = job self).
  { rewrite <- Hself. reflexivity. }
  assert (H1 : id (job self1) = None).
  { unfold primary_metric_setter in Hs.
    destruct (is_data_binding_expression _ _).
    - inversion Hs. reflexivity.
    - destruct (resolve_metric _); inversion Hs. reflexivity. }
  rewrite Hj in H1. contradiction.
Qed.

(** The envelope in closed form: both branches of the source build the
    same task details, up to the settings field. *)
Lemma to_rest_object_shape (self : ForecastingJob) :
  _to_rest_object self
  = mkJobBase None (name (job self)) None
      (mkRestAutoMLJob
         (display_name (job self)) (description (job self))
         (experiment_name (job self)) (tags (job self)) (compute (job self))
         (properties (job self)) (environment_id (job self))
         (environment_variables (job self)) (services (job self))
         (to_rest_data_outputs (outputs (job self))) (resources (job self))
         (mkRestForecasting
            (_validation_data_to_rest (_resolve_data_inputs (data self)))
            (option_map TabularFeaturizationSettings_to_rest (_featurization self))
            (option_map TabularLimitSettings_to_rest (_limits self))
            (option_map ForecastingTrainingSettings_to_rest (_training self))
            (_primary_metric self) (log_verbosity self)
            (option_map ForecastingSettings_to_rest (_forecasting_settings self)))
         (option_map identity_to_job_rest_object (identity (job self)))
         (queue_settings (job self)) None).
Proof.
  unfold _to_rest_object, with_rf_data, primary_metric.
  destruct (_forecasting_settings self); reflexivity.
Qed.

Lemma roundtrip_result (self : ForecastingJob) :
  reproducible self ->
  _from_rest_object (_to_rest_object self)
  = Returned (mkForecastingJob
                (mkJobAttributes None (name (job self)) (description (job self))
                   (tags (job self)) (properties (job self))
                   (experiment_name (job self)) (services (job self)) None None
                   (display_name (job self)) (compute (job self))
                   (outputs (job self)) (resources (job self)) (identity (job self))
                   (queue_settings (job self)) None None)
                (data self) FORECASTING (log_verbosity self) (_featurization self)
                (_limits self) (_training self) (_primary_metric self)
                (_forecasting_settings self)).
Proof.
  intros [Hf Hl Ht Hfs Hid Hout Hdata Hm].
  rewrite to_rest_object_shape. unfold _from_rest_object.
  cbn [jb_id jb_name jb_system_data jb_properties rp_display_name rp_description
       rp_experiment_name rp_tags rp_compute_id rp_properties rp_environment_id
       rp_environment_variables rp_services rp_outputs rp_resources rp_task_details
       rp_identity rp_queue_settings rp_status rf_data rf_featurization_settings
       rf_limit_settings rf_training_settings rf_primary_metric rf_log_verbosity
       rf_forecasting_settings].
  rewrite (init_on_settled _ _ _ Hm).
  unfold set_data_settings.
  cbn [job data task_type log_verbosity _featurization _limits _training
       _primary_metric _forecasting_settings kw_job kw_data kw_log_verbosity
       kw_featurization kw_limits kw_training].
  rewrite Hf, Hl, Ht, Hfs, Hid, Hout, Hdata. reflexivity.
Qed.

End RoundTrip.

(** C4.  An absent forecasting-settings record is an absent wire field,
    not a defaulted one, and a present record is its own wire form.
    When the collaborators invert each other on what the entity holds,
    converting it to the wire representation and back returns an entity
    with the same carried job attributes (name, description, tags,
    properties, experiment name, services, display name, compute,
    outputs, resources, identity, queue settings), data settings, log
    verbosity, featurization, limits, training, primary metric and
    forecasting settings; settings that were absent are absent again,
    not an empty record. *)
Theorem rest_roundtrip_carried_fields :
  forall (R : RestModels) (self : ForecastingJob),
    (_forecasting_settings self = None ->
     rf_forecasting_settings (rp_task_details (jb_properties (_to_rest_object self)))
     = None)
    /\ (forall fs, _forecasting_settings self = Some fs ->
        rf_forecasting_settings (rp_task_details (jb_properties (_to_rest_object self)))
        = Some (ForecastingSettings_to_rest fs))
    /\ (reproducible self ->
        exists self',
          _from_rest_object (_to_rest_object self) = Returned self'
          /\ carried_attributes (job self') = carried_attributes (job self)
          /\ data self' = data self
          /\ task_type self' = FORECASTING
          /\ log_verbosity self' = log_verbosity self
          /\ _featurization self' = _featurization self
          /\ _limits self' = _limits self
          /\ _training self' = _training self
          /\ primary_metric self' = primary_metric self
          /\ _forecasting_settings self' = _forecasting_settings self
          /\ (_forecasting_settings self = None -> _forecasting_settings self' = None)).
Proof.
  intros R self. split; [|split].
  - apply absent_settings_on_the_wire.
  - intros fs Hfs. rewrite to_rest_object_shape. simpl. rewrite Hfs. reflexivity.
  - intros Hrep.
    eexists. split; [apply roundtrip_result; exact Hrep|].
    simpl. repeat (split; [reflexivity|]).
    intros Hnone. exact Hnone.
Qed.

Lemma submitted_job_reproducible : reproducible (R := plain_models) submitted_job.
Proof.
  constructor; first [exact I | reflexivity].
Qed.

Lemma rest_roundtrip_carried_fields_witness :
  reproducible (R := plain_models) (seasonal_job 7)
  /\ exists self',
      _from_rest_object (R := plain_models) (_to_rest_object (seasonal_job 7))
      = Returned self'
      /\ _forecasting_settings self' = Some (seasonal_settings 7)
      /\ primary_metric self' = MEnum R2_SCORE.
Proof.
  assert (Hrep : reproducible (R := plain_models) (seasonal_job 7)).
  { constructor; first [exact I | reflexivity]. }
  split; [exact Hrep|].
  destruct (proj2 (proj2 (rest_roundtrip_carried_fields plain_models (seasonal_job 7)))
              Hrep)
    as [self' [Hrt [_ [_ [_ [_ [_ [_ [_ [Hpm [Hfs _]]]]]]]]]]].
  exists self'. split; [exact Hrt|]. split; [exact Hfs | exact Hpm].
Defined.

(** C4, in the specification's wording, does not hold: an entity that
    carries an [id] and environment variables does not come back as it
    was, although every collaborator is the identity. *)
Lemma rest_roundtrip_drops_service_fields :
  reproducible (R := plain_models) submitted_job
  /\ ~ roundtrip_reproduces_all (R := plain_models) submitted_job.
Proof.
  split; [exact submitted_job_reproducible|].
  unfold roundtrip_reproduces_all.
  rewrite (roundtrip_result submitted_job submitted_job_reproducible).
  unfold submitted_job. simpl. intros H. inversion H.
Qed.

(* ================================================================== *)
(** * Further properties: [primary_metric] and construction *)
(* ================================================================== *)

Lemma set__primary_metric_same (self : ForecastingJob) :
  set__primary_metric (_primary_metric self) self = self.
Proof. destruct self; reflexivity. Qed.

Lemma primary_metric_setter_frame_aux (value : metric_value) (self self' : ForecastingJob)
      (r : outcome unit) :
  primary_metric_setter value self = (r, self') -> same_but_primary_metric self' self.
Proof.
  unfold primary_metric_setter, same_but_primary_metric.
  destruct (is_data_binding_expression (py_str value) ["parent"]).
  - intros H. inversion H. simpl. repeat split.
  - destruct (resolve_metric value); intros H; inversion H; simpl; repeat split.
Qed.

(** X1.  The [primary_metric] setter touches no attribute but
    [_primary_metric].  When it raises the entity is as it was; when it
    returns the stored value is a member of the enumeration or a
    placeholder. *)
Theorem primary_metric_setter_frame :
  forall (value : metric_value) (self : ForecastingJob),
    same_but_primary_metric (snd (primary_metric_setter value self)) self
    /\ match fst (primary_metric_setter value self) with
       | Raised _ => snd (primary_metric_setter value self) = self
       | Returned _ => metric_settled (primary_metric (snd (primary_metric_setter value self)))
       end.
Proof.
  intros value self.
  destruct (primary_metric_setter value self) as [[[]|e] self'] eqn:Hs.
  - split.
    + unfold primary_metric_setter in Hs.
      destruct (is_data_binding_expression (py_str value) ["parent"]).
      * inversion Hs. unfold same_but_primary_metric. simpl. repeat split.
      * destruct (resolve_metric value); inversion Hs.
        unfold same_but_primary_metric. simpl. repeat split.
    + simpl. eapply setter_settles. exact Hs.
  - assert (Hself : self' = self).
    { unfold primary_metric_setter in Hs.
      destruct (is_data_binding_expression (py_str value) ["parent"]);
        [discriminate Hs|].
      destruct (resolve_metric value); inversion Hs. reflexivity. }
    subst self'. simpl. split; [|reflexivity].
    unfold same_but_primary_metric. repeat split.
Qed.

(** X2.  Reading [primary_metric] and assigning the value back changes
    nothing and does not raise, on any entity that a returning
    assignment or a returning construction left. *)
Theorem primary_metric_reassign_is_noop :
  (forall (value : metric_value) (self self' : ForecastingJob),
      primary_metric_setter value self = (Returned tt, self') ->
      primary_metric_setter (primary_metric self') self' = (Returned tt, self'))
  /\ (forall (value : metric_value) (fs : option ForecastingSettings) (kwargs : JobKwargs)
             (self : ForecastingJob),
         __init__ value fs kwargs = Returned self ->
         primary_metric_setter (primary_metric self) self = (Returned tt, self)).
Proof.
  assert (Hsettled : forall self, metric_settled (primary_metric self) ->
                                  primary_metric_setter (primary_metric self) self
                                  = (Returned tt, self)).
  { intros self H.
    destruct (setter_on_settled (primary_metric self) self H) as [_ Hs].
    rewrite Hs. unfold primary_metric. rewrite set__primary_metric_same. reflexivity. }
  split.
  - intros value self self' H. apply Hsettled. eapply setter_settles. exact H.
  - intros value fs kwargs self H. apply Hsettled. eapply init_settles. exact H.
Qed.

Lemma primary_metric_reassign_is_noop_witness :
  primary_metric_setter (MStr "spearmanCorrelation") (seasonal_job 7)
  = (Returned tt, set__primary_metric (MEnum SPEARMAN_CORRELATION) (seasonal_job 7))
  /\ primary_metric_setter (MEnum SPEARMAN_CORRELATION)
       (set__primary_metric (MEnum SPEARMAN_CORRELATION) (seasonal_job 7))
     = (Returned tt, set__primary_metric (MEnum SPEARMAN_CORRELATION) (seasonal_job 7)).
Proof.
  assert (H : primary_metric_setter (MStr "spearmanCorrelation") (seasonal_job 7)
              = (Returned tt,
                 set__primary_metric (MEnum SPEARMAN_CORRELATION) (seasonal_job 7))).
  { vm_compute. reflexivity. }
  split; [exact H|].
  exact (proj1 primary_metric_reassign_is_noop _ _ _ H).
Defined.

(** X3.  A member of the enumeration can be assigned as it is: the
    assignment returns and stores that member, as assigning the member's
    wire spelling does. *)
Theorem primary_metric_accepts_members :
  forall (m : ForecastingPrimaryMetrics) (self : ForecastingJob),
    primary_metric_setter (MEnum m) self = (Returned tt, set__primary_metric (MEnum m) self)
    /\ primary_metric_setter (MStr (metric_wire_value m)) self
       = primary_metric_setter (MEnum m) self.
Proof.
  intros m self. split.
  - exact (proj2 (setter_on_settled (MEnum m) self I)).
  - destruct m; vm_compute; reflexivity.
Qed.

(** A construction with a string that has a key naming no member fails
    with the [KeyError] of that key. *)
Lemma init_unknown_metric (s key : string) (fs : option ForecastingSettings)
      (kwargs : JobKwargs) :
  is_data_binding_expression s ["parent"] = false ->
  normalized_key s = Some key ->
  find_metric key all_metrics = None ->
  __init__ (MStr s) fs kwargs = Raised (KeyError key).
Proof.
  intros Hb Hkey Hfind. unfold __init__.
  assert (Ht : metric_truthy (MStr s) = true).
  { destruct s; [discriminate Hkey | reflexivity]. }
  rewrite Ht.
  unfold primary_metric_setter.
  cbv beta iota delta [py_str resolve_metric str_content]. rewrite Hb.
  unfold normalized_key in Hkey.
  destruct (camel_to_snake s) as [snake|]; [|discriminate Hkey].
  cbn [option_map] in Hkey. inversion Hkey; subst key.
  unfold ForecastingPrimaryMetrics_getitem. rewrite Hfind. reflexivity.
Qed.

(** X4.  The empty string is treated in two ways: the constructor takes
    it for no metric and falls back to the default; the setter asks
    [camel_to_snake] for its normal form, gets [None], and fails with
    the [AttributeError] of [None.upper()], the entity as it was. *)
Theorem empty_metric_constructor_and_setter :
  forall (fs : option ForecastingSettings) (kwargs : JobKwargs) (self : ForecastingJob),
    (exists j, __init__ (MStr EmptyString) fs kwargs = Returned j
               /\ primary_metric j = MEnum NORMALIZED_ROOT_MEAN_SQUARED_ERROR)
    /\ (exists message,
           primary_metric_setter (MStr EmptyString) self
           = (Raised (AttributeError message), self)).
Proof.
  intros fs kwargs self. split.
  - eexists. split; reflexivity.
  - eexists. reflexivity.
Qed.

(** X5.  Construction with an ASCII string that is not a placeholder and
    whose key, [camel_to_snake(value).upper()], names no member raises
    the [KeyError] of that key: no entity is built. *)
Theorem constructor_rejects_unknown_metric :
  forall (s key : string) (fs : option ForecastingSettings) (kwargs : JobKwargs),
    Str.is_ascii s = true ->
    is_data_binding_expression s ["parent"] = false ->
    normalized_key s = Some key ->
    find_metric key all_metrics = None ->
    __init__ (MStr s) fs kwargs = Raised (KeyError key).
Proof.
  intros s key fs kwargs _ Hb Hkey Hfind.
  apply init_unknown_metric; assumption.
Qed.

Lemma constructor_rejects_unknown_metric_witness :
  Str.is_ascii "Accuracy, fooBar" = true
  /\ __init__ (MStr "Accuracy, fooBar") None no_kwargs = Raised (KeyError "ACCURACY,FOO_BAR").
Proof.
  split; [reflexivity|].
  apply (constructor_rejects_unknown_metric "Accuracy, fooBar" "ACCURACY,FOO_BAR"
           None no_kwargs).
  - reflexivity.
  - vm_compute. reflexivity.
  - vm_compute. reflexivity.
  - vm_compute. reflexivity.
Defined.

(** X6.  A construction that returns leaves the forecasting settings
    exactly as they were passed, [None] included, the task type set to
    forecasting, and a primary metric that is a member of the
    enumeration or a placeholder; without a usable metric argument the
    metric is the default. *)
Theorem constructor_result :
  forall (value : metric_value) (fs : option ForecastingSettings) (kwargs : JobKwargs)
         (self : ForecastingJob),
    __init__ value fs kwargs = Returned self ->
    _forecasting_settings self = fs
    /\ task_type self = FORECASTING
    /\ metric_settled (primary_metric self)
    /\ (metric_truthy value = false ->
        primary_metric self = MEnum NORMALIZED_ROOT_MEAN_SQUARED_ERROR).
Proof.
  intros value fs kwargs self H.
  pose proof (init_settles _ _ _ _ H) as Hsettled.
  unfold __init__ in H.
  destruct (primary_metric_setter _ _) as [[[]|e] self1] eqn:Hs; [|discriminate H].
  inversion H; subst self; clear H.
  pose proof (primary_metric_setter_frame_aux _ _ _ _ Hs) as Hframe.
  split; [reflexivity|]. split; [|split; [exact Hsettled|]].
  - simpl. destruct Hframe as [_ [_ [Ht _]]]. rewrite Ht. reflexivity.
  - intros Hfalse. rewrite Hfalse in Hs.
    vm_compute in Hs. inversion Hs. reflexivity.
Qed.

Lemma constructor_result_witness :
  __init__ MNone (Some (seasonal_settings 7)) no_kwargs
  = Returned (set__forecasting_settings (Some (seasonal_settings 7)) blank_job)
  /\ _forecasting_settings (set__forecasting_settings (Some (seasonal_settings 7)) blank_job)
     = Some (seasonal_settings 7)
  /\ task_type (set__forecasting_settings (Some (seasonal_settings 7)) blank_job)
     = FORECASTING.
Proof.
  assert (H : __init__ MNone (Some (seasonal_settings 7)) no_kwargs
              = Returned (set__forecasting_settings (Some (seasonal_settings 7)) blank_job)).
  { vm_compute. reflexivity. }
  split; [exact H|].
  destruct (constructor_result _ _ _ _ H) as [Hfs [Htask _]].
  split; [exact Hfs | exact Htask].
Defined.

(* ================================================================== *)
(** * Further properties: [set_forecast_settings] *)
(* ================================================================== *)

Lemma if_not_none_twice {A : Type} (x old : option A) :
  if_not_none x (if_not_none x old) = if_not_none x old.
Proof. destruct x; reflexivity. Qed.

Lemma if_not_none_assoc {A : Type} (x y old : option A) :
  if_not_none x (if_not_none y old) = if_not_none (if_not_none x y) old.
Proof. destruct x; reflexivity. Qed.

(** X7.  A call of [set_forecast_settings] repeated with the same
    arguments changes nothing the second time. *)
Theorem set_forecast_settings_idempotent :
  forall (args : ForecastingSettings) (self : ForecastingJob),
    set_forecast_settings args (set_forecast_settings args self)
    = set_forecast_settings args self.
Proof.
  intros args self. unfold set_forecast_settings, set__forecasting_settings.
  simpl. rewrite !if_not_none_twice. reflexivity.
Qed.

(** X8.  Two calls of [set_forecast_settings] in a row are one call with
    the later arguments laid over the earlier ones: where both pass a
    value the later call wins, and a value passed only by the earlier
    call stays. *)
Theorem set_forecast_settings_compose :
  forall (a b : ForecastingSettings) (self : ForecastingJob),
    set_forecast_settings b (set_forecast_settings a self)
    = set_forecast_settings (settings_override b a) self.
Proof.
  intros a b self. unfold set_forecast_settings, set__forecasting_settings, settings_override.
  simpl. rewrite !if_not_none_assoc. reflexivity.
Qed.

(** X9.  [set_forecast_settings] cannot clear an attribute: one that
    held a value before the call holds a value after it, whatever the
    arguments, since [None] stands for a parameter that was left out. *)
Theorem set_forecast_settings_never_clears :
  forall (args : ForecastingSettings) (self : ForecastingJob)
         (fs fs' : ForecastingSettings) (f : settings_field),
    _forecasting_settings self = Some fs ->
    _forecasting_settings (set_forecast_settings args self) = Some fs' ->
    settings_get f fs <> None ->
    settings_get f fs' <> None.
Proof.
  intros args self fs fs' f Hfs Hfs' Hset.
  destruct (set_forecast_settings_stored args self) as [fs2 [Hfs2 Hget]].
  rewrite Hfs2 in Hfs'. inversion Hfs'; subst fs2; clear Hfs'.
  rewrite Hget. unfold settings_before. rewrite Hfs.
  destruct (settings_get f args); [discriminate | exact Hset].
Qed.

Lemma set_forecast_settings_never_clears_witness :
  settings_get F_seasonality (seasonal_settings 7) <> None
  /\ forall fs',
      _forecasting_settings (set_forecast_settings no_forecast_args (seasonal_job 7))
      = Some fs' ->
      settings_get F_seasonality fs' <> None.
Proof.
  assert (H : settings_get F_seasonality (seasonal_settings 7) <> None).
  { simpl. discriminate. }
  split; [exact H|].
  intros fs' Hfs'.
  exact (set_forecast_settings_never_clears no_forecast_args (seasonal_job 7)
           (seasonal_settings 7) fs' F_seasonality eq_refl Hfs' H).
Defined.

(** X10.  A call of [set_forecast_settings] that passes nothing leaves an
    entity with a settings record as it was, and gives an entity without
    one the record's defaults: the record is created even when no value
    is written to it. *)
Theorem set_forecast_settings_without_arguments :
  forall self : ForecastingJob,
    (forall fs, _forecasting_settings self = Some fs ->
                set_forecast_settings no_forecast_args self = self)
    /\ (_forecasting_settings self = None ->
        _forecasting_settings (set_forecast_settings no_forecast_args self)
        = Some ForecastingSettings_new).
Proof.
  intros self. split.
  - intros fs Hfs. unfold set_forecast_settings. rewrite Hfs.
    destruct self as [j d t lv fe li tr pm ofs]. simpl in Hfs. subst ofs.
    destruct fs. reflexivity.
  - intros Hnone. unfold set_forecast_settings. rewrite Hnone. reflexivity.
Qed.

Lemma set_forecast_settings_without_arguments_witness :
  set_forecast_settings no_forecast_args (seasonal_job 7) = seasonal_job 7
  /\ _forecasting_settings (set_forecast_settings no_forecast_args blank_job)
     = Some ForecastingSettings_new.
Proof.
  split.
  - exact (proj1 (set_forecast_settings_without_arguments (seasonal_job 7))
             (seasonal_settings 7) eq_refl).
  - exact (proj2 (set_forecast_settings_without_arguments blank_job) eq_refl).
Defined.

(** X11.  An entity without forecasting settings is not equal to what
    [set_forecast_settings] makes of it, whatever the arguments and the
    base equality: an absent record and a record are different, even if
    the record holds defaults only. *)
Theorem settings_creation_breaks_equality :
  forall (super_eq : ForecastingJob -> ForecastingJob -> bool)
         (args : ForecastingSettings) (self : ForecastingJob),
    _forecasting_settings self = None ->
    __eq__ super_eq self (AForecastingJob (set_forecast_settings args self)) = EqBool false
    /\ __ne__ super_eq self (AForecastingJob (set_forecast_settings args self)) = true.
Proof.
  intros super_eq args self Hnone.
  unfold __ne__, __eq__. rewrite Hnone.
  unfold set_forecast_settings. simpl.
  rewrite andb_false_r.
  destruct (super_eq _ _); split; reflexivity.
Qed.

Lemma settings_creation_breaks_equality_witness :
  __eq__ (fun _ _ => true) blank_job
    (AForecastingJob (set_forecast_settings no_forecast_args blank_job))
  = EqBool false.
Proof.
  exact (proj1 (settings_creation_breaks_equality (fun _ _ => true) no_forecast_args
                  blank_job eq_refl)).
Defined.

(* ================================================================== *)
(** * Further properties: [set_training] and [__ne__] *)
(* ================================================================== *)

(** X12.  Over any base behaviour, [set_training] differs from what the
    base left in the stored training record only, and there in
    [enable_stack_ensemble] only; when the flag is passed, or when the
    base left no record, it is the base behaviour and nothing more. *)
Theorem set_training_frame :
  forall (super_set_training : ForecastingTrainingSettings -> ForecastingJob -> ForecastingJob)
         (args : ForecastingTrainingSettings) (self : ForecastingJob),
    set__training (_training (super_set_training args self))
      (set_training super_set_training args self)
    = super_set_training args self
    /\ match _training (super_set_training args self),
             _training (set_training super_set_training args self) with
       | Some t0, Some t => same_but_stack_ensemble t t0
       | None, None => True
       | _, _ => False
       end
    /\ (forall b, enable_stack_ensemble args = Some b ->
                  set_training super_set_training args self = super_set_training args self)
    /\ (_training (super_set_training args self) = None ->
        set_training super_set_training args self = super_set_training args self).
Proof.
  intros super_set_training args self. unfold set_training.
  destruct (super_set_training args self) as [j d t lv fe li tr pm ofs].
  simpl. destruct (enable_stack_ensemble args) as [b|]; destruct tr as [t0|]; simpl;
    repeat split; try reflexivity; try discriminate.
Qed.

Lemma set_training_frame_witness :
  set_training (fun _ self => self)
    (mkForecastingTrainingSettings None None None (Some true) None None None None None None)
    (seasonal_job 7)
  = seasonal_job 7.
Proof.
  exact (proj1 (proj2 (proj2 (set_training_frame (fun _ self => self)
           (mkForecastingTrainingSettings None None None (Some true) None
              None None None None None)
           (seasonal_job 7)))) true eq_refl).
Defined.

(** X13.  [__ne__] answers [False] for an object that is not a
    [ForecastingJob]: it negates the truth value of [NotImplemented],
    which is true, while [__eq__] hands [NotImplemented] back. *)
Theorem ne_incompatible_type_is_false :
  forall (super_eq : ForecastingJob -> ForecastingJob -> bool)
         (self : ForecastingJob) (v : option pyval),
    __ne__ super_eq self (AnotherObject v) = false
    /\ __eq__ super_eq self (AnotherObject v) = NotImplemented.
Proof.
  intros super_eq self v. split; reflexivity.
Qed.

(* ================================================================== *)
(** * Further properties: the converters *)
(* ================================================================== *)

Lemma is_none_option_map {A B : Type} (f : A -> B) (x : option A) :
  is_none (option_map f x) = is_none x.
Proof. destruct x; reflexivity. Qed.

(** What a returning construction stores. *)
Lemma init_stores_keywords (v : metric_value) (fs : option ForecastingSettings)
      (kwargs : JobKwargs) (self : ForecastingJob) :
  __init__ v fs kwargs = Returned self ->
  job self = kw_job kwargs /\ data self = kw_data kwargs
  /\ task_type self = FORECASTING /\ log_verbosity self = kw_log_verbosity kwargs
  /\ _featurization self = kw_featurization kwargs /\ _limits self = kw_limits kwargs
  /\ _training self = kw_training kwargs /\ _forecasting_settings self = fs.
Proof.
  unfold __init__.
  destruct (primary_metric_setter _ _) as [[[]|e] self1] eqn:Hs; intros H;
    inversion H; subst self; clear H.
  apply primary_metric_setter_frame_aux in Hs.
  destruct Hs as [Hj [Hd [Ht [Hlv [Hfe [Hli [Htr _]]]]]]].
  simpl. rewrite Hj, Hd, Ht, Hlv, Hfe, Hli, Htr. repeat split.
Qed.

Lemma init_wire_spelling (m : ForecastingPrimaryMetrics) (fs : option ForecastingSettings)
      (kwargs : JobKwargs) :
  __init__ (MStr (metric_wire_value m)) fs kwargs = __init__ (MEnum m) fs kwargs.
Proof. destruct m; vm_compute; reflexivity. Qed.

Section ConverterProperties.

Context {R : RestModels}.

Lemma from_rest_object_unfold (obj : JobBase) :
  _from_rest_object obj
  = match
      __init__
        (rf_primary_metric (rp_task_details (jb_properties obj)))
        (option_map ForecastingSettings_from_rest
           (rf_forecasting_settings (rp_task_details (jb_properties obj))))
        (mkJobKwargs
           (mkJobAttributes (jb_id obj) (jb_name obj)
              (rp_description (jb_properties obj)) (rp_tags (jb_properties obj))
              (rp_properties (jb_properties obj))
              (rp_experiment_name (jb_properties obj))
              (rp_services (jb_properties obj)) (rp_status (jb_properties obj))
              (jb_system_data obj) (rp_display_name (jb_properties obj))
              (rp_compute_id (jb_properties obj))
              (from_rest_data_outputs (rp_outputs (jb_properties obj)))
              (rp_resources (jb_properties obj))
              (option_map identity_from_rest_object (rp_identity (jb_properties obj)))
              (rp_queue_settings (jb_properties obj)) None None)
           (rf_data (rp_task_details (jb_properties obj)))
           (rf_log_verbosity (rp_task_details (jb_properties obj)))
           (option_map TabularFeaturizationSettings_from_rest
              (rf_featurization_settings (rp_task_details (jb_properties obj))))
           (option_map TabularLimitSettings_from_rest
              (rf_limit_settings (rp_task_details (jb_properties obj))))
           (option_map ForecastingTrainingSettings_from_rest
              (rf_training_settings (rp_task_details (jb_properties obj)))))
    with
    | Raised e => Raised e
    | Returned j =>
        Returned (set_data_settings
                    (_validation_data_from_rest (_restore_data_inputs (data j))) j)
    end.
Proof.
  unfold _from_rest_object.
  destruct (__init__ _ _ _) as [j|e]; [|reflexivity].
  destruct j; reflexivity.
Qed.

End ConverterProperties.

(** X14.  [_to_rest_object] does not read [id], [status] or
    [creation_context]: entities that differ in these three only have
    the same wire representation. *)
Theorem to_rest_ignores_service_fields :
  forall (R : RestModels) (self : ForecastingJob) (i s c : option pyval),
    _to_rest_object (with_service_fields i s c self) = _to_rest_object self.
Proof.
  intros R self i s c. rewrite !to_rest_object_shape. reflexivity.
Qed.

(** X15.  [_from_rest_object] does not read the environment fields of
    the job properties: envelopes that differ in [environment_id] and
    [environment_variables] only give the same entity, or the same
    error. *)
Theorem from_rest_ignores_environment :
  forall (R : RestModels) (obj : JobBase) (e v : option pyval),
    _from_rest_object (with_wire_environment e v obj) = _from_rest_object obj.
Proof.
  intros R obj e v. rewrite !from_rest_object_unfold. reflexivity.
Qed.

(** X16.  [_from_rest_object] takes the primary metric of the wire in
    either form: the wire spelling of a member as a plain string gives
    what the member itself gives, an entity that holds the member; a
    wire object without a metric gives an entity with the default. *)
Theorem from_rest_normalizes_metric :
  forall (R : RestModels) (obj : JobBase) (m : ForecastingPrimaryMetrics),
    _from_rest_object (with_wire_primary_metric (MStr (metric_wire_value m)) obj)
    = _from_rest_object (with_wire_primary_metric (MEnum m) obj)
    /\ (exists self,
           _from_rest_object (with_wire_primary_metric (MEnum m) obj) = Returned self
           /\ primary_metric self = MEnum m)
    /\ (exists self,
           _from_rest_object (with_wire_primary_metric MNone obj) = Returned self
           /\ primary_metric self = MEnum NORMALIZED_ROOT_MEAN_SQUARED_ERROR).
Proof.
  intros R obj m. rewrite !from_rest_object_unfold.
  unfold with_wire_primary_metric.
  cbn [jb_id jb_name jb_system_data jb_properties rp_display_name rp_description
       rp_experiment_name rp_tags rp_compute_id rp_properties rp_environment_id
       rp_environment_variables rp_services rp_outputs rp_resources rp_task_details
       rp_identity rp_queue_settings rp_status rf_data rf_featurization_settings
       rf_limit_settings rf_training_settings rf_primary_metric rf_log_verbosity
       rf_forecasting_settings].
  rewrite init_wire_spelling.
  split; [reflexivity|]. split.
  - rewrite (init_on_settled (MEnum m) _ _ I). eexists. split; reflexivity.
  - eexists. split; reflexivity.
Qed.

(** X17.  When the primary metric of the wire is an ASCII string that
    is not a placeholder and whose key, [camel_to_snake(value).upper()],
    names no member, [_from_rest_object] raises the [KeyError] of that
    key and builds no entity. *)
Theorem from_rest_rejects_unknown_metric :
  forall (R : RestModels) (obj : JobBase) (s key : string),
    rf_primary_metric (rp_task_details (jb_properties obj)) = MStr s ->
    Str.is_ascii s = true ->
    is_data_binding_expression s ["parent"] = false ->
    normalized_key s = Some key ->
    find_metric key all_metrics = None ->
    _from_rest_object obj = Raised (KeyError key).
Proof.
  intros R obj s key Hpm _ Hb Hkey Hfind.
  rewrite from_rest_object_unfold, Hpm.
  rewrite (init_unknown_metric s key _ _ Hb Hkey Hfind). reflexivity.
Qed.

Lemma from_rest_rejects_unknown_metric_witness :
  _from_rest_object (R := plain_models)
    (with_wire_primary_metric (MStr "Accuracy") (_to_rest_object (seasonal_job 7)))
  = Raised (KeyError "ACCURACY").
Proof.
  apply (from_rest_rejects_unknown_metric plain_models
           (with_wire_primary_metric (MStr "Accuracy") (_to_rest_object (seasonal_job 7)))
           "Accuracy" "ACCURACY").
  - reflexivity.
  - reflexivity.
  - vm_compute. reflexivity.
  - vm_compute. reflexivity.
  - vm_compute. reflexivity.
Defined.

(** X18.  [_from_rest_object] rebuilds a nested record exactly when the
    wire has one: forecasting settings, featurization, limits, training
    and identity are absent in the entity if and only if they are absent
    on the wire; the task type is forecasting and the stored metric is a
    member or a placeholder. *)
Theorem from_rest_presence :
  forall (R : RestModels) (obj : JobBase) (self : ForecastingJob),
    _from_rest_object obj = Returned self ->
    is_none (_forecasting_settings self)
    = is_none (rf_forecasting_settings (rp_task_details (jb_properties obj)))
    /\ is_none (_featurization self)
       = is_none (rf_featurization_settings (rp_task_details (jb_properties obj)))
    /\ is_none (_limits self)
       = is_none (rf_limit_settings (rp_task_details (jb_properties obj)))
    /\ is_none (_training self)
       = is_none (rf_training_settings (rp_task_details (jb_properties obj)))
    /\ is_none (identity (job self)) = is_none (rp_identity (jb_properties obj))
    /\ task_type self = FORECASTING
    /\ metric_settled (primary_metric self).
Proof.
  intros R obj self. rewrite from_rest_object_unfold.
  destruct (__init__ _ _ _) as [j|e] eqn:Hinit; [|discriminate].
  intros H. inversion H; subst self; clear H.
  pose proof (init_settles _ _ _ _ Hinit) as Hsettled.
  apply init_stores_keywords in Hinit.
  destruct Hinit as [Hj [_ [Ht [_ [Hfe [Hli [Htr Hfs]]]]]]].
  unfold set_data_settings, primary_metric in *. simpl.
  rewrite Hj, Ht, Hfe, Hli, Htr, Hfs. simpl.
  rewrite !is_none_option_map. repeat split. exact Hsettled.
Qed.

Lemma from_rest_presence_witness :
  exists self,
    _from_rest_object (R := plain_models) (_to_rest_object blank_job) = Returned self
    /\ is_none (_forecasting_settings self) = true
    /\ is_none (_training self) = true.
Proof.
  assert (H : _from_rest_object (R := plain_models) (_to_rest_object blank_job)
              = Returned blank_job).
  { vm_compute. reflexivity. }
  exists blank_job. split; [exact H|].
  destruct (from_rest_presence plain_models _ _ H) as [Hfs [_ [_ [Htr _]]]].
  split; [exact Hfs | exact Htr].
Defined.

(** X19.  [_to_rest_object] converts a nested record exactly when the
    entity has one: the five nested wire fields are absent if and only
    if the entity's are; and the envelope it builds has no [id], no
    [system_data] and no [status]. *)
Theorem to_rest_presence :
  forall (R : RestModels) (self : ForecastingJob),
    let obj := _to_rest_object self in
    is_none (rf_forecasting_settings (rp_task_details (jb_properties obj)))
    = is_none (_forecasting_settings self)
    /\ is_none (rf_featurization_settings (rp_task_details (jb_properties obj)))
       = is_none (_featurization self)
    /\ is_none (rf_limit_settings (rp_task_details (jb_properties obj)))
       = is_none (_limits self)
    /\ is_none (rf_training_settings (rp_task_details (jb_properties obj)))
       = is_none (_training self)
    /\ is_none (rp_identity (jb_properties obj)) = is_none (identity (job self))
    /\ jb_id obj = None /\ jb_system_data obj = None
    /\ rp_status (jb_properties obj) = None.
Proof.
  intros R self obj. subst obj. rewrite to_rest_object_shape. simpl.
  rewrite !is_none_option_map. repeat split.
Qed.

(** X20.  One round trip is enough: when the collaborators invert each
    other on what the entity holds, the entity that comes back from the
    wire is reproduced exactly by every further round trip. *)
Theorem roundtrip_is_stable :
  forall (R : RestModels) (self : ForecastingJob),
    reproducible self ->
    exists self',
      _from_rest_object (_to_rest_object self) = Returned self'
      /\ reproducible self'
      /\ roundtrip_reproduces_all self'.
Proof.
  intros R self Hrep.
  pose proof (roundtrip_result self Hrep) as Hrt.
  destruct Hrep as [Hf Hl Ht Hfs Hid Hout Hdata Hm].
  eexists. split; [exact Hrt|].
  assert (Hrep' : reproducible
                    (mkForecastingJob
                       (mkJobAttributes None (name (job self)) (description (job self))
                          (tags (job self)) (properties (job self))
                          (experiment_name (job self)) (services (job self)) None None
                          (display_name (job self)) (compute (job self))
                          (outputs (job self)) (resources (job self))
                          (identity (job self)) (queue_settings (job self)) None None)
                       (data self) FORECASTING (log_verbosity self) (_featurization self)
                       (_limits self) (_training self) (_primary_metric self)
                       (_forecasting_settings self))).
  { constructor; assumption. }
  split; [exact Hrep'|].
  unfold roundtrip_reproduces_all.
  rewrite (roundtrip_result _ Hrep'). reflexivity.
Qed.

Lemma roundtrip_is_stable_witness :
  exists self',
    _from_rest_object (R := plain_models) (_to_rest_object submitted_job) = Returned self'
    /\ roundtrip_reproduces_all (R := plain_models) self'.
Proof.
  destruct (roundtrip_is_stable plain_models submitted_job) as [self' [H1 [_ H2]]].
  - constructor; first [exact I | reflexivity].
  - exists self'. split; [exact H1 | exact H2].
Defined.

(* ================================================================== *)
(** * Further properties: [_create_instance_from_schema_dict] *)
(* ================================================================== *)

Section SchemaDictProperties.

Variable V : Type.

Lemma schema_lookup_remove (k k' : string) (d : schema_dict V) :
  schema_lookup k (schema_remove k' d)
  = if String.eqb k k' then None else schema_lookup k d.
Proof.
  induction d as [|[k0 v] d IH]; simpl.
  - destruct (String.eqb k k'); reflexivity.
  - destruct (String.eqb k' k0) eqn:E0.
    + rewrite IH. destruct (String.eqb k k') eqn:E; [reflexivity|].
      apply String.eqb_eq in E0. subst k0. rewrite E. reflexivity.
    + simpl. rewrite IH.
      destruct (String.eqb k k0) eqn:E1; [|reflexivity].
      destruct (String.eqb k k') eqn:E; [|reflexivity].
      apply String.eqb_eq in E1. apply String.eqb_eq in E. subst.
      rewrite String.eqb_refl in E0. discriminate.
Qed.

Lemma schema_remove_absent (k : string) (d : schema_dict V) :
  schema_lookup k d = None -> schema_remove k d = d.
Proof.
  induction d as [|[k0 v] d IH]; simpl; [reflexivity|].
  destruct (String.eqb k k0); [discriminate|].
  intros H. rewrite (IH H). reflexivity.
Qed.

Lemma pop_or_none_eq (k : string) (d : schema_dict V) :
  pop_or_none k d = (schema_get k d, schema_remove k d).
Proof.
  unfold pop_or_none, schema_get.
  destruct (schema_lookup k d) eqn:E; [reflexivity|].
  rewrite (schema_remove_absent k d E). reflexivity.
Qed.

Lemma schema_get_remove (k k' : string) (d : schema_dict V) :
  String.eqb k k' = false -> schema_get k (schema_remove k' d) = schema_get k d.
Proof.
  intros E. unfold schema_get. rewrite schema_lookup_remove, E. reflexivity.
Qed.

Lemma schema_lookup_remove_keys (k : string) (ks : list string) (d : schema_dict V) :
  schema_lookup k (schema_remove_keys ks d)
  = if existsb (String.eqb k) ks then None else schema_lookup k d.
Proof.
  unfold schema_remove_keys. revert d.
  induction ks as [|k0 ks IH]; intros d; simpl; [reflexivity|].
  rewrite IH, schema_lookup_remove.
  destruct (String.eqb k k0); simpl; [|reflexivity].
  destruct (existsb (String.eqb k) ks); reflexivity.
Qed.

Lemma not_in_eqb (k : string) (ks : list string) :
  ~ In k ks -> forall k', In k' ks -> String.eqb k' k = false.
Proof.
  intros Hnot k' Hin. apply String.eqb_neq. intros E. subst k'. contradiction.
Qed.

End SchemaDictProperties.

(** X21.  The two required keys: a mapping without [training_data]
    makes [_create_instance_from_schema_dict] raise
    [KeyError('training_data')], whatever else it holds; one with
    [training_data] but without [target_column_name] makes it raise
    [KeyError('target_column_name')].  In both cases the constructor is
    not reached, and the caller's mapping has already lost the keys that
    were taken out before the failure. *)
Theorem schema_dict_required_keys :
  forall (V : Type) (TASK_TYPE_YAML : string)
         (ForecastingJob_of_keywords : schema_dict V -> outcome ForecastingJob)
         (set_data : DataKwargs V -> ForecastingJob -> ForecastingJob)
         (loaded_data : schema_dict V),
    (schema_lookup "training_data" loaded_data = None ->
     _create_instance_from_schema_dict TASK_TYPE_YAML ForecastingJob_of_keywords set_data
       loaded_data
     = (Raised (KeyError "training_data"), schema_remove TASK_TYPE_YAML loaded_data))
    /\ (TASK_TYPE_YAML <> "training_data" ->
        schema_lookup "training_data" loaded_data <> None ->
        schema_lookup "target_column_name" loaded_data = None ->
        _create_instance_from_schema_dict TASK_TYPE_YAML ForecastingJob_of_keywords set_data
          loaded_data
        = (Raised (KeyError "target_column_name"),
           schema_remove "training_data" (schema_remove TASK_TYPE_YAML loaded_data))).
Proof.
  intros V TASK construct set_data d. split.
  - intros Hnone. unfold _create_instance_from_schema_dict.
    rewrite pop_or_none_eq. cbn [snd]. unfold pop_required.
    rewrite schema_lookup_remove, Hnone.
    destruct (String.eqb "training_data" TASK); reflexivity.
  - intros Htask Hsome Hnone. unfold _create_instance_from_schema_dict.
    rewrite pop_or_none_eq. cbn [snd]. unfold pop_required.
    assert (E : String.eqb "training_data" TASK = false).
    { apply String.eqb_neq. intros E. apply Htask. symmetry. exact E. }
    rewrite schema_lookup_remove, E.
    destruct (schema_lookup "training_data" d) as [td|]; [|contradiction Hsome; reflexivity].
    rewrite !schema_lookup_remove, Hnone.
    destruct (String.eqb "target_column_name" TASK); reflexivity.
Qed.

Lemma schema_dict_required_keys_witness :
  _create_instance_from_schema_dict "task" sample_constructor sample_set_data
    [("task", Some (PStr "forecasting")); ("training_data", Some (PStr "azureml:train:1"))]
  = (Raised (KeyError "target_column_name"), []).
Proof.
  apply (proj2 (schema_dict_required_keys pyval "task" sample_constructor sample_set_data
                  [("task", Some (PStr "forecasting"));
                   ("training_data", Some (PStr "azureml:train:1"))])).
  - discriminate.
  - simpl. discriminate.
  - reflexivity.
Defined.

(** X22.  With both required keys present and a task-type key that is
    none of the nine data keys, [_create_instance_from_schema_dict]
    splits the mapping: the constructor gets the mapping without the
    task-type key and the nine data keys, every other key with the value
    it had; [set_data] gets the nine data settings as the mapping held
    them, [None] for an optional key that is missing; an exception of
    the constructor is passed on.  The caller's mapping is left as the
    constructor got it. *)
Theorem schema_dict_partition :
  forall (V : Type) (TASK_TYPE_YAML : string)
         (ForecastingJob_of_keywords : schema_dict V -> outcome ForecastingJob)
         (set_data : DataKwargs V -> ForecastingJob -> ForecastingJob)
         (loaded_data : schema_dict V),
    ~ In TASK_TYPE_YAML data_keys ->
    schema_lookup "training_data" loaded_data <> None ->
    schema_lookup "target_column_name" loaded_data <> None ->
    let rest := schema_remove_keys (TASK_TYPE_YAML :: data_keys) loaded_data in
    _create_instance_from_schema_dict TASK_TYPE_YAML ForecastingJob_of_keywords set_data
      loaded_data
    = (match ForecastingJob_of_keywords rest with
       | Returned job => Returned (set_data (data_kwargs_of loaded_data) job)
       | Raised e => Raised e
       end, rest)
    /\ (forall k, In k (TASK_TYPE_YAML :: data_keys) -> schema_lookup k rest = None)
    /\ (forall k, ~ In k (TASK_TYPE_YAML :: data_keys) ->
                  schema_lookup k rest = schema_lookup k loaded_data).
Proof.
  intros V TASK construct set_data d Htask Htd Htc rest.
  pose proof (not_in_eqb TASK data_keys Htask) as Hneq.
  split; [|split].
  - unfold _create_instance_from_schema_dict.
    rewrite pop_or_none_eq. cbn [snd]. unfold pop_required.
    rewrite schema_lookup_remove, (Hneq "training_data") by (simpl; tauto).
    destruct (schema_lookup "training_data" d) as [td|] eqn:Etd;
      [|contradiction Htd; reflexivity].
    rewrite !schema_lookup_remove, (Hneq "target_column_name") by (simpl; tauto).
    cbn [String.eqb Ascii.eqb Bool.eqb].
    destruct (schema_lookup "target_column_name" d) as [tc|] eqn:Etc;
      [|contradiction Htc; reflexivity].
    rewrite !pop_or_none_eq.
    unfold data_kwargs_of.
    repeat rewrite schema_get_remove by first [reflexivity | apply Hneq; simpl; tauto].
    assert (Gtd : schema_get "training_data" d = td).
    { unfold schema_get. rewrite Etd. reflexivity. }
    assert (Gtc : schema_get "target_column_name" d = tc).
    { unfold schema_get. rewrite Etc. reflexivity. }
    rewrite Gtd, Gtc.
    subst rest. unfold schema_remove_keys, data_keys. cbn [fold_left].
    destruct (construct _); reflexivity.
  - intros k Hin. subst rest. rewrite schema_lookup_remove_keys.
    destruct (existsb (String.eqb k) (TASK :: data_keys)) eqn:E; [reflexivity|].
    exfalso.
    assert (Hex : existsb (String.eqb k) (TASK :: data_keys) = true).
    { apply existsb_exists. exists k. split; [exact Hin | apply String.eqb_refl]. }
    rewrite Hex in E. discriminate.
  - intros k Hnot. subst rest. rewrite schema_lookup_remove_keys.
    destruct (existsb (String.eqb k) (TASK :: data_keys)) eqn:E; [|reflexivity].
    exfalso. apply existsb_exists in E. destruct E as [k' [Hin Heq]].
    apply String.eqb_eq in Heq. subst k'. contradiction.
Qed.

Lemma schema_dict_partition_witness :
  ~ In "task" data_keys
  /\ _create_instance_from_schema_dict "task" sample_constructor sample_set_data
       sample_document
     = (match sample_constructor
                (schema_remove_keys ("task" :: data_keys) sample_document) with
        | Returned job => Returned (sample_set_data (data_kwargs_of sample_document) job)
        | Raised e => Raised e
        end, schema_remove_keys ("task" :: data_keys) sample_document).
Proof.
  assert (Htask : ~ In "task" data_keys).
  { simpl. intros H. repeat (destruct H as [H|H]; [discriminate H|]). exact H. }
  split; [exact Htask|].
  apply (proj1 (schema_dict_partition pyval "task" sample_constructor sample_set_data
                  sample_document Htask
                  ltac:(simpl; discriminate) ltac:(simpl; discriminate))).
Defined.

(* ================================================================== *)
(** * Further properties: [set_training] over the base behaviour *)
(* ================================================================== *)

(** X23.  A value passed for [enable_stack_ensemble] is the one stored:
    the override applies to a call that leaves the flag out, not to one
    that sets it, so stack ensembling can be switched on explicitly. *)
Theorem set_training_keeps_explicit_flag :
  forall (default args : ForecastingTrainingSettings) (self : ForecastingJob) (b : bool),
    enable_stack_ensemble args = Some b ->
    exists t,
      _training (ForecastingJob_set_training default args self) = Some t
      /\ enable_stack_ensemble t = Some b.
Proof.
  intros default args self b Hb.
  unfold ForecastingJob_set_training.
  rewrite (set_training_explicit _ args self b Hb).
  unfold AutoMLTabular_set_training. simpl. rewrite Hb.
  eexists. split; reflexivity.
Qed.

Lemma set_training_keeps_explicit_flag_witness :
  exists t,
    _training (ForecastingJob_set_training no_training_args
                 (mkForecastingTrainingSettings None None None (Some true) None
                                                None None None None None)
                 blank_job) = Some t
    /\ enable_stack_ensemble t = Some true.
Proof.
  apply (set_training_keeps_explicit_flag no_training_args
           (mkForecastingTrainingSettings None None None (Some true) None
                                          None None None None None)
           blank_job true).
  reflexivity.
Defined.

(** X24.  A call of [set_training] repeated with the same arguments
    changes nothing the second time, whatever the record's defaults. *)
Theorem set_training_idempotent :
  forall (default args : ForecastingTrainingSettings) (self : ForecastingJob),
    ForecastingJob_set_training default args
      (ForecastingJob_set_training default args self)
    = ForecastingJob_set_training default args self.
Proof.
  intros default args self.
  unfold ForecastingJob_set_training, set_training, AutoMLTabular_set_training, training.
  destruct args as [a1 a2 a3 a4 a5 a6 a7 a8 a9 a10].
  destruct self as [j d t lv fe li tr pm ofs].
  destruct a4 as [b|]; simpl;
    destruct a1, a2, a3, a5, a6, a7, a8, a9, a10; reflexivity.
Qed.

(* ================================================================== *)
(** * Further properties: accepted spellings *)
(* ================================================================== *)

(** X25.  An ASCII string that the setter accepts as a metric spells the
    name of the member it resolves to, up to case and underscores; so
    two accepted ASCII spellings that differ in case or underscores only
    resolve to the same member. *)
Theorem accepted_spelling_names_its_metric :
  forall (s : string) (m : ForecastingPrimaryMetrics) (self : ForecastingJob),
    Str.is_ascii s = true ->
    resolves_to s m self ->
    spelling_of m s
    /\ (forall s' m',
           Str.is_ascii s' = true ->
           resolves_to s' m' self ->
           fold_spelling s = fold_spelling s' -> m = m').
Proof.
  intros s m self _ Hs.
  pose proof (resolved_spelling s m self Hs) as Hsp.
  split; [exact Hsp|].
  intros s' m' _ Hs' Hfold.
  apply resolved_spelling in Hs'.
  unfold spelling_of in Hsp, Hs'.
  apply folded_name_injective. rewrite <- Hsp, <- Hs'. exact Hfold.
Qed.

Lemma accepted_spelling_names_its_metric_witness :
  Str.is_ascii "r2Score" = true
  /\ resolves_to "r2Score" R2_SCORE blank_job
  /\ spelling_of R2_SCORE "r2Score".
Proof.
  assert (Hr : resolves_to "r2Score" R2_SCORE blank_job).
  { unfold resolves_to. vm_compute. reflexivity. }
  split; [reflexivity|]. split; [exact Hr|].
  exact (proj1 (accepted_spelling_names_its_metric "r2Score" R2_SCORE blank_job
                  eq_refl Hr)).
Defined.
